(** * HouseHelp.AI: the client-side issue lifecycle, specialty matching and
      provider lookup, embedded in Rocq

    The development follows the React sources of the repository.  Each
    component's state hooks become one record, each handler becomes a
    function from the state before the call to the state after it, together
    with the list of requests it sent to the backend.  The backend is not part
    of the client code: a handler receives the backend's answer to each
    request as a function argument.

    Text is modelled with the Standard Library's strings.  Letters are the
    ASCII letters and white space is the ASCII white space; a character
    above 127 stands for itself. *)

From Stdlib Require Import List String Ascii Bool Arith ZArith QArith Lia.
Import ListNotations.

Local Open Scope string_scope.
Local Open Scope list_scope.

(** ** JavaScript text primitives *)

Module Js.

(** [String.prototype.toLowerCase], one character. *)
Definition lowerChar (c : ascii) : ascii :=
  let n := nat_of_ascii c in
  if (65 <=? n)%nat && (n <=? 90)%nat then ascii_of_nat (n + 32) else c.

Fixpoint toLowerCase (s : string) : string :=
  match s with
  | EmptyString => EmptyString
  | String c r => String (lowerChar c) (toLowerCase r)
  end.

(** [s.includes(pat)]: [pat] occurs in [s] as a contiguous run. *)
Fixpoint includes (s pat : string) : bool :=
  if prefix pat s then true
  else match s with
       | EmptyString => false
       | String _ r => includes r pat
       end.

(** White space as [trim] sees it: tab, line feed, vertical tab, form
    feed, carriage return and space. *)
Definition isWhiteSpace (c : ascii) : bool :=
  let n := nat_of_ascii c in
  ((9 <=? n)%nat && (n <=? 13)%nat) || (n =? 32)%nat.

Fixpoint trimStart (s : string) : string :=
  match s with
  | EmptyString => EmptyString
  | String c r => if isWhiteSpace c then trimStart r else s
  end.

Fixpoint trimEnd (s : string) : string :=
  match s with
  | EmptyString => EmptyString
  | String c r =>
      match trimEnd r with
      | EmptyString => if isWhiteSpace c then EmptyString else String c EmptyString
      | r' => String c r'
      end
  end.

Definition trim (s : string) : string := trimEnd (trimStart s).

Fixpoint allWhite (s : string) : bool :=
  match s with
  | EmptyString => true
  | String c r => isWhiteSpace c && allWhite r
  end.

(** Truthiness of a string value: the empty string is falsy. *)
Definition truthyStr (s : string) : bool := negb (s =? "").

(** Truthiness of a possibly absent ([null] or [undefined]) string. *)
Definition truthyOpt (o : option string) : bool :=
  match o with
  | Some s => truthyStr s
  | None => false
  end.

(** [a || b] on possibly absent strings. *)
Definition orElse (a b : option string) : option string :=
  if truthyOpt a then a else b.

(** Truthiness of a possibly absent number: [0] is falsy. *)
Definition truthyNum (o : option Z) : bool :=
  match o with
  | Some n => negb (n =? 0)%Z
  | None => false
  end.

(** Truthiness of a possibly absent boolean. *)
Definition truthyBool (o : option bool) : bool :=
  match o with
  | Some b => b
  | None => false
  end.

End Js.

(** ** Records exchanged with the backend *)

Record Step := mkStep {
  step : option Z;
  instruction : string;
  tools_needed : option (list string);
  step_estimated_time : option string
}.

Record RepairPlan := mkRepairPlan {
  diagnosis : option string;
  is_diy : option bool;
  estimated_time : option string;
  estimated_cost : option string;
  safety_warnings : option (list string);
  steps : option (list Step);
  recommended_provider : option string
}.

Record Provider := mkProvider {
  provider_id : Z;
  provider_name : string;
  provider_specialty : string;
  rating : Q;
  email : string;
  phone : string;
  availability : string
}.

(** What an axios call can throw: [error.response?.data?.detail] and
    [error.message]. *)
Record ApiError := mkApiError {
  err_detail : option string;
  err_message : option string
}.

(** An awaited API call either resolves with the response data or throws. *)
Inductive Response (A : Type) : Type :=
| Resolved (data : A)
| Thrown (e : ApiError).
Arguments Resolved {A} data.
Arguments Thrown {A} e.

(** Requests sent to the backend, as the API module (services/api.js)
    issues them. *)
Inductive Request : Type :=
| GetProviders (specialty : option string)
| CallMaintenance (issueId providerId : Z)
| AnalyzeIssue (issueId : Z)
| GetIssue (issueId : Z)
| UpdateIssueStatus (issueId : Z) (status : string)
| DeleteIssue (issueId : Z)
| CreateIssue (image description : string)
| SendMessage (message : string) (issueId : option Z).

(** [providersAPI.getProviders(specialty = null)]:
    [params = specialty ? { specialty } : {}]. *)
Definition getProvidersParams (specialty : option string) : option string :=
  if Js.truthyOpt specialty then specialty else None.

(** ** MaintenanceProviders: state shared by both versions of the component *)

Record MPState := mkMPState {
  providers : list Provider;
  selectedProvider : option Provider;
  isDialogOpen : bool;
  isLoading : bool;
  error : string;
  success : string
}.

Definition mpInitial : MPState := mkMPState [] None false false "" "".

Definition setProviders (v : list Provider) (s : MPState) : MPState :=
  mkMPState v (selectedProvider s) (isDialogOpen s) (isLoading s) (error s) (success s).
Definition setSelectedProvider (v : option Provider) (s : MPState) : MPState :=
  mkMPState (providers s) v (isDialogOpen s) (isLoading s) (error s) (success s).
Definition setIsDialogOpen (v : bool) (s : MPState) : MPState :=
  mkMPState (providers s) (selectedProvider s) v (isLoading s) (error s) (success s).
Definition setIsLoading (v : bool) (s : MPState) : MPState :=
  mkMPState (providers s) (selectedProvider s) (isDialogOpen s) v (error s) (success s).
Definition setError (v : string) (s : MPState) : MPState :=
  mkMPState (providers s) (selectedProvider s) (isDialogOpen s) (isLoading s) v (success s).
Definition setSuccess (v : string) (s : MPState) : MPState :=
  mkMPState (providers s) (selectedProvider s) (isDialogOpen s) (isLoading s) (error s) v.

(** The four specialty names of the provider registry. *)
Definition categories : list string :=
  ["plumbing"; "electrical"; "appliances"; "general"].

(** ** MaintenanceProviders with the specialty matcher (unnamed/part_003) *)

Module Matcher.

(** Lines 41-48: the branch taken when [recommended_provider] is truthy;
    [h] is the hint as received. *)
Definition fromRecommended (h : string) : string :=
  let provider := Js.toLowerCase h in
  if Js.includes provider "plumb" then "plumbing"
  else if Js.includes provider "electric" then "electrical"
  else if Js.includes provider "appliance" then "appliances"
  else if (provider =? "general") || Js.includes provider "general" then "general"
  else "general".

(** Lines 51-60: the branch taken otherwise;
    [description = repairPlan?.diagnosis?.toLowerCase() || ''].  *)
Definition fromDiagnosis (repairPlan : option RepairPlan) : string :=
  let description :=
    match repairPlan with
    | Some p =>
        match diagnosis p with
        | Some d => if Js.truthyStr (Js.toLowerCase d) then Js.toLowerCase d else ""
        | None => ""
        end
    | None => ""
    end in
  if Js.includes description "plumb" || Js.includes description "water"
     || Js.includes description "pipe" || Js.includes description "leak"
  then "plumbing"
  else if Js.includes description "electric" || Js.includes description "wiring"
          || Js.includes description "outlet" || Js.includes description "switch"
  then "electrical"
  else if Js.includes description "appliance" || Js.includes description "washer"
          || Js.includes description "dryer" || Js.includes description "refrigerator"
  then "appliances"
  else "general".

(** The value of [specialty] when [getProviders] is first called
    (lines 39-61): [if (repairPlan?.recommended_provider) ... else ...]. *)
Definition specialty (repairPlan : option RepairPlan) : string :=
  match repairPlan with
  | Some p =>
      match recommended_provider p with
      | Some h => if Js.truthyStr h then fromRecommended h else fromDiagnosis repairPlan
      | None => fromDiagnosis repairPlan
      end
  | None => fromDiagnosis repairPlan
  end.

(** [loadProviders] (lines 36-78).  [registry] answers
    [GET /api/providers/] for the given query parameter.  The result is
    the state after the call and the requests sent, in order. *)
Definition loadProviders (registry : option string -> Response (list Provider))
    (repairPlan : option RepairPlan) (s : MPState) : MPState * list Request :=
  let specialty := specialty repairPlan in
  let q1 := getProvidersParams (Some specialty) in
  match registry q1 with
  | Thrown _ =>
      (setError "Failed to load maintenance providers" s, [GetProviders q1])
  | Resolved providersData =>
      if (Nat.eqb (List.length providersData) 0) && negb (specialty =? "general") then
        let q2 := getProvidersParams (Some "general") in
        match registry q2 with
        | Thrown _ =>
            (setError "Failed to load maintenance providers" s,
             [GetProviders q1; GetProviders q2])
        | Resolved providersData' =>
            (setProviders providersData' s, [GetProviders q1; GetProviders q2])
        end
      else (setProviders providersData s, [GetProviders q1])
  end.

(** Lines 119-121: the component returns [null] only without a plan. *)
Definition renders (repairPlan : option RepairPlan) : bool :=
  match repairPlan with
  | Some _ => true
  | None => false
  end.

(** [handleCallMaintenance] (lines 80-112).  [backend] answers
    [POST /api/issues/{id}/call-maintenance].  The third component lists
    the arguments [onProviderCalled] is (eventually) invoked with. *)
Definition handleCallMaintenance (backend : Z -> Z -> Response string)
    (issueId : option Z) (s : MPState) : MPState * list Request * list string :=
  match selectedProvider s, issueId with
  | Some sp, Some iid =>
      if Js.truthyNum issueId then
        let s1 := setSuccess "" (setError "" (setIsLoading true s)) in
        match backend iid (provider_id sp) with
        | Resolved result =>
            let s2 := setIsDialogOpen false
                        (setSuccess ("✅ Success! Maintenance request sent to "
                                     ++ provider_name sp ++ ". They will contact you soon.") s1) in
            (setIsLoading false s2, [CallMaintenance iid (provider_id sp)], [result])
        | Thrown e =>
            let errorMessage :=
              match Js.orElse (Js.orElse (err_detail e) (err_message e))
                              (Some "Unknown error occurred") with
              | Some m => m
              | None => ""
              end in
            let s2 := setError ("Failed to send maintenance request: " ++ errorMessage) s1 in
            (setIsLoading false s2, [CallMaintenance iid (provider_id sp)], [])
        end
      else (s, [], [])
  | _, _ => (s, [], [])
  end.

End Matcher.

(** ** MaintenanceProviders without the matcher
       (frontend/src/components/MaintenanceProviders.js) *)

Module Plain.

(** Lines 39-42: the hint is passed on as it is. *)
Definition specialty (repairPlan : option RepairPlan) : option string :=
  match repairPlan with
  | Some p => if Js.truthyOpt (recommended_provider p) then recommended_provider p else None
  | None => None
  end.

(** [loadProviders] (lines 36-50). *)
Definition loadProviders (registry : option string -> Response (list Provider))
    (repairPlan : option RepairPlan) (s : MPState) : MPState * list Request :=
  let specialty := specialty repairPlan in
  let q := getProvidersParams specialty in
  match registry q with
  | Thrown _ => (setError "Failed to load maintenance providers" s, [GetProviders q])
  | Resolved providersData => (setProviders providersData s, [GetProviders q])
  end.

(** Lines 80-82: [if (!repairPlan || repairPlan.is_diy) return null]. *)
Definition renders (repairPlan : option RepairPlan) : bool :=
  match repairPlan with
  | Some p => negb (Js.truthyBool (is_diy p))
  | None => false
  end.

(** [handleCallMaintenance] (lines 52-73). *)
Definition handleCallMaintenance (backend : Z -> Z -> Response string)
    (issueId : option Z) (s : MPState) : MPState * list Request * list string :=
  match selectedProvider s, issueId with
  | Some sp, Some iid =>
      if Js.truthyNum issueId then
        let s1 := setSuccess "" (setError "" (setIsLoading true s)) in
        match backend iid (provider_id sp) with
        | Resolved result =>
            let s2 := setIsDialogOpen false
                        (setSuccess ("Maintenance request sent to " ++ provider_name sp) s1) in
            (setIsLoading false s2, [CallMaintenance iid (provider_id sp)], [result])
        | Thrown _ =>
            let s2 := setError "Failed to send maintenance request" s1 in
            (setIsLoading false s2, [CallMaintenance iid (provider_id sp)], [])
        end
      else (s, [], [])
  | _, _ => (s, [], [])
  end.

End Plain.

(** [openProviderDialog] (same in both versions). *)
Definition openProviderDialog (provider : Provider) (s : MPState) : MPState :=
  setIsDialogOpen true (setSelectedProvider (Some provider) s).

(** What the user can do with a mounted component: click the [i]-th provider
    card, press "Contact Provider" or "Cancel" in the dialog. *)
Inductive Event : Type :=
| ClickCard (i : nat)
| ClickContact
| ClickCancel.

(** One user event.  [shown] says whether the component returned its tree
    (a component that returned [null] offers nothing to click); the dialog's
    buttons exist while the dialog is open, and "Contact Provider" is
    disabled while [isLoading]. *)
Definition onEvent
    (handle : option Z -> MPState -> MPState * list Request * list string)
    (shown : bool) (issueId : option Z) (ev : Event) (s : MPState)
    : MPState * list Request * list string :=
  if shown then
    match ev with
    | ClickCard i =>
        match nth_error (providers s) i with
        | Some p => (openProviderDialog p s, [], [])
        | None => (s, [], [])
        end
    | ClickContact =>
        if isDialogOpen s && negb (isLoading s) then handle issueId s else (s, [], [])
    | ClickCancel =>
        if isDialogOpen s then (setIsDialogOpen false s, [], []) else (s, [], [])
    end
  else (s, [], []).

(** A run of user events; requests and callback arguments accumulate. *)
Fixpoint run
    (handle : option Z -> MPState -> MPState * list Request * list string)
    (shown : bool) (issueId : option Z) (evs : list Event) (s : MPState)
    : MPState * list Request * list string :=
  match evs with
  | [] => (s, [], [])
  | ev :: rest =>
      let '(s1, r1, c1) := onEvent handle shown issueId ev s in
      let '(s2, r2, c2) := run handle shown issueId rest s1 in
      (s2, r1 ++ r2, c1 ++ c2)
  end.

(** The selected provider, if any, is one of the listed providers. *)
Definition selectionListed (s : MPState) : Prop :=
  match selectedProvider s with
  | Some sp => In sp (providers s)
  | None => True
  end.

(** The request is a call-maintenance request for a provider of [l]. *)
Definition callsListed (l : list Provider) (r : Request) : Prop :=
  exists iid pr, In pr l /\ r = CallMaintenance iid (provider_id pr).

(** ** The specialty matcher as an ordered table

    The keyword families in their priority order; [firstHit] returns the
    category of the first family with a keyword occurring in the text, and
    [general] when no family hits. *)

Definition hintFamilies : list (list string * string) :=
  [ (["plumb"], "plumbing");
    (["electric"], "electrical");
    (["appliance"], "appliances");
    (["general"], "general") ].

Definition diagnosisFamilies : list (list string * string) :=
  [ (["plumb"; "water"; "pipe"; "leak"], "plumbing");
    (["electric"; "wiring"; "outlet"; "switch"], "electrical");
    (["appliance"; "washer"; "dryer"; "refrigerator"], "appliances") ].

Fixpoint firstHit (families : list (list string * string)) (text : string) : string :=
  match families with
  | [] => "general"
  | (keywords, category) :: rest =>
      if existsb (Js.includes text) keywords then category else firstHit rest text
  end.

(** The diagnosis text the matcher looks at: lower-cased, empty when the
    plan has no diagnosis. *)
Definition diagnosisText (p : RepairPlan) : string :=
  match diagnosis p with
  | Some d => Js.toLowerCase d
  | None => ""
  end.

(** ** FlowchartDisplay (frontend/src/components/FlowchartDisplay.js and
       unnamed/part_000; the step list is the same in both) *)

Module FlowchartDisplay.

(** The number shown in "Step N": [step.step || index + 1]. *)
Definition stepNumber (st : Step) (index : nat) : Z :=
  match step st with
  | Some n => if Js.truthyNum (Some n) then n else Z.of_nat index + 1
  | None => Z.of_nat index + 1
  end.

(** [steps.map((step, index) => ...)], from position [index]. *)
Fixpoint stepNumbersFrom (index : nat) (l : list Step) : list Z :=
  match l with
  | [] => []
  | st :: rest => stepNumber st index :: stepNumbersFrom (S index) rest
  end.

(** The numbers of the step list, or [None] when the component shows
    "No detailed steps available." ([steps] absent or empty). *)
Definition stepNumbers (repairPlan : RepairPlan) : option (list Z) :=
  match steps repairPlan with
  | Some l => if (0 <? List.length l)%nat then Some (stepNumbersFrom 0 l) else None
  | None => None
  end.

(** A divider follows the step at [index] when
    [index < repairPlan.steps.length - 1]; the subtraction is on numbers,
    so it is [-1] for the empty list. *)
Definition dividerAfter (l : list Step) (index : nat) : bool :=
  (Z.of_nat index <? Z.of_nat (List.length l) - 1)%Z.

Definition dividers (l : list Step) : nat :=
  List.length (filter (dividerAfter l) (seq 0 (List.length l))).

(** The chip of the overview: [is_diy ? 'DIY Repair' : 'Professional Required']. *)
Definition diyLabel (repairPlan : RepairPlan) : string :=
  if Js.truthyBool (is_diy repairPlan) then "DIY Repair" else "Professional Required".

(** [step.tools_needed && step.tools_needed.length > 0]: the tools shown. *)
Definition toolsShown (st : Step) : list string :=
  match tools_needed st with
  | Some l => l
  | None => []
  end.

End FlowchartDisplay.

(** ** ImageUpload (frontend/src/components/ImageUpload.js) *)

Module ImageUpload.

(** The hooks of the component; the selected file is represented by its
    name. *)
Record State := mkState {
  selectedImage : option string;
  description : string;
  isRecording : bool;
  isUploading : bool;
  error : string;
  success : string
}.

Definition initial : State := mkState None "" false false "" "".

(** [onDrop] (lines 31-37): the first accepted file, if any. *)
Definition onDrop (acceptedFiles : list string) (s : State) : State :=
  match acceptedFiles with
  | file :: _ =>
      mkState (Some file) (description s) (isRecording s) (isUploading s) "" (success s)
  | [] => s
  end.

(** The text field's [onChange]. *)
Definition setDescription (v : string) (s : State) : State :=
  mkState (selectedImage s) v (isRecording s) (isUploading s) (error s) (success s).

(** [toggleRecording] (lines 49-55). *)
Definition toggleRecording (s : State) : State :=
  mkState (selectedImage s)
    (if negb (isRecording s) then description s ++ " [Voice note recorded]"
     else description s)
    (negb (isRecording s)) (isUploading s) (error s) (success s).

(** [handleSubmit] (lines 58-88).  [backend] answers [POST /api/issues/];
    the third component lists the arguments [onUploadSuccess] is invoked
    with. *)
Definition handleSubmit (backend : string -> string -> Response string) (s : State)
  : State * list Request * list string :=
  match selectedImage s with
  | Some image =>
      if negb (Js.truthyStr (Js.trim (description s))) then
        (mkState (selectedImage s) (description s) (isRecording s) (isUploading s)
           "Please provide both an image and description" (success s), [], [])
      else
        match backend image (description s) with
        | Resolved result =>
            (mkState None "" (isRecording s) false "" "Issue uploaded successfully!",
             [CreateIssue image (description s)], [result])
        | Thrown _ =>
            (mkState (selectedImage s) (description s) (isRecording s) false
               "Failed to upload issue. Please try again." "",
             [CreateIssue image (description s)], [])
        end
  | None =>
      (mkState (selectedImage s) (description s) (isRecording s) (isUploading s)
         "Please provide both an image and description" (success s), [], [])
  end.

(** The submit button's [disabled] attribute (line 185). *)
Definition submitDisabled (s : State) : bool :=
  isUploading s
  || match selectedImage s with Some _ => false | None => true end
  || negb (Js.truthyStr (Js.trim (description s))).

End ImageUpload.

(** ** IssueDetails: the issue page *)

(** An issue as the backend returns it; [repair_plan] is the stored plan as
    JSON text. *)
Record Issue := mkIssue {
  issue_id : Z;
  issue_description : string;
  image_path : option string;
  status : string;
  issue_diagnosis : option string;
  repair_plan : option string;
  created_at : string;
  updated_at : string
}.

(** The answer of [POST /api/issues/{id}/analyze]. *)
Record Analysis := mkAnalysis {
  analysis_repair_plan : option RepairPlan;
  mermaid_flowchart : option string;
  text_flowchart : option string
}.

Module Page.

Record State := mkState {
  issue : option Issue;
  analysis : option Analysis;
  isAnalyzing : bool;
  error : string;
  isLoading : bool
}.

(** The hooks' initial values (lines 36-40). *)
Definition initial : State := mkState None None false "" true.

(** [getStatusColor]. *)
Definition getStatusColor (status : string) : string :=
  if status =? "new" then "default"
  else if status =? "analyzed" then "primary"
  else if status =? "in-progress" then "warning"
  else if status =? "completed" then "success"
  else if status =? "maintenance_called" then "info"
  else "default".

(** [getStepIndex]. *)
Definition getStepIndex (status : string) : nat :=
  if status =? "new" then 0
  else if status =? "analyzed" then 1
  else if status =? "in-progress" then 2
  else if status =? "completed" then 3
  else if status =? "maintenance_called" then 2
  else 0.

(** The labels of the progress stepper. *)
Definition steps : list string :=
  ["Issue Reported"; "AI Analysis"; "In Progress"; "Completed"].

(** "Mark as Completed" is offered when [issue.status !== 'completed']. *)
Definition showsMarkCompleted (i : Issue) : bool := negb (status i =? "completed").

(** "Re-analyze" is offered when [analysis] is set. *)
Definition showsReanalyze (s : State) : bool :=
  match analysis s with Some _ => true | None => false end.

End Page.

(** *** frontend/src/pages/IssueDetails.js *)

Module IssueDetails.

Import Page.

(** [loadIssue] (lines 46-61). *)
Definition loadIssue (getIssue : Z -> Response Issue) (id : Z) (s : State)
  : State * list Request :=
  match getIssue id with
  | Resolved issueData =>
      (mkState (Some issueData) (analysis s) (isAnalyzing s) (error s) false, [GetIssue id])
  | Thrown _ =>
      (mkState (issue s) (analysis s) (isAnalyzing s) "Failed to load issue details" false,
       [GetIssue id])
  end.

(** The updater of lines 73-77:
    [{...prevIssue, status: 'analyzed',
      diagnosis: result.repair_plan?.diagnosis || prevIssue.diagnosis}]. *)
Definition analyzedIssue (result : Analysis) (prevIssue : Issue) : Issue :=
  mkIssue (issue_id prevIssue) (issue_description prevIssue) (image_path prevIssue)
    "analyzed"
    (Js.orElse (match analysis_repair_plan result with
                | Some p => diagnosis p
                | None => None
                end)
               (issue_diagnosis prevIssue))
    (repair_plan prevIssue) (created_at prevIssue) (updated_at prevIssue).

(** [analyzeIssue] (lines 63-84).  The page offers it only once the issue is
    loaded, so the updater runs on a present issue. *)
Definition analyzeIssue (analyze : Z -> Response Analysis) (id : Z) (s : State)
  : State * list Request :=
  match analyze id with
  | Resolved result =>
      (mkState (option_map (analyzedIssue result) (issue s)) (Some result) false ""
         (isLoading s), [AnalyzeIssue id])
  | Thrown _ =>
      (mkState (issue s) (analysis s) false "Failed to analyze issue. Please try again."
         (isLoading s), [AnalyzeIssue id])
  end.

(** The "Mark as Completed" button's [onClick] (lines 343-350). *)
Definition markCompleted (updateIssue : Z -> string -> Response string)
    (getIssue : Z -> Response Issue) (id : Z) (s : State) : State * list Request :=
  match issue s with
  | Some i =>
      match updateIssue (issue_id i) "completed" with
      | Resolved _ =>
          let '(s', r) := loadIssue getIssue id s in
          (s', UpdateIssueStatus (issue_id i) "completed" :: r)
      | Thrown _ =>
          (mkState (issue s) (analysis s) (isAnalyzing s) "Failed to mark as completed"
             (isLoading s), [UpdateIssueStatus (issue_id i) "completed"])
      end
  | None => (s, [])
  end.

(** [handleDeleteIssue] (lines 86-96); [confirmed] is the answer to
    [window.confirm].  The last component says whether the page navigated
    to the dashboard. *)
Definition handleDeleteIssue (deleteIssue : Z -> Response string) (confirmed : bool)
    (id : Z) (s : State) : State * list Request * bool :=
  if confirmed then
    match deleteIssue id with
    | Resolved _ => (s, [DeleteIssue id], true)
    | Thrown _ =>
        (mkState (issue s) (analysis s) (isAnalyzing s) "Failed to delete issue"
           (isLoading s), [DeleteIssue id], false)
    end
  else (s, [], false).

(** Lines 234 and 257: whether one of the two cards with an analyze button
    is shown (the page has loaded, so [issue] is present). *)
Definition showsAnalyzeCard (s : State) : bool :=
  match issue s, analysis s with
  | Some i, None =>
      (status i =? "new")
      || (status i =? "analyzed") || (status i =? "in-progress")
      || (status i =? "completed")
  | _, _ => false
  end.

End IssueDetails.

(** *** unnamed/part_002: the page that re-reads the issue after analysis *)

Module IssueDetailsReload.

Import Page.

(** [loadIssue] (lines 45-62).  [JSON_parse] is [JSON.parse] on a stored
    plan: [None] when it throws, otherwise the parsed value ([null] or a
    plan). *)
Definition loadIssue (JSON_parse : string -> option (option RepairPlan))
    (getIssue : Z -> Response Issue) (id : Z) (s : State) : State * list Request :=
  match getIssue id with
  | Resolved issueData =>
      if Js.truthyOpt (repair_plan issueData) then
        match repair_plan issueData with
        | Some text =>
            match JSON_parse text with
            | Some repairPlan =>
                (mkState (Some issueData) (Some (mkAnalysis repairPlan None None))
                   (isAnalyzing s) (error s) false, [GetIssue id])
            | None =>
                (mkState (Some issueData) (analysis s) (isAnalyzing s)
                   "Failed to load issue details" false, [GetIssue id])
            end
        | None =>
            (mkState (Some issueData) (analysis s) (isAnalyzing s) (error s) false,
             [GetIssue id])
        end
      else
        (mkState (Some issueData) (analysis s) (isAnalyzing s) (error s) false, [GetIssue id])
  | Thrown _ =>
      (mkState (issue s) (analysis s) (isAnalyzing s) "Failed to load issue details" false,
       [GetIssue id])
  end.

(** [analyzeIssue] (lines 64-80). *)
Definition analyzeIssue (JSON_parse : string -> option (option RepairPlan))
    (analyze : Z -> Response Analysis) (getIssue : Z -> Response Issue)
    (id : Z) (s : State) : State * list Request :=
  match analyze id with
  | Resolved result =>
      let s1 := mkState (issue s) (Some result) true "" (isLoading s) in
      let '(s2, r) := loadIssue JSON_parse getIssue id s1 in
      (mkState (issue s2) (analysis s2) false (error s2) (isLoading s2), AnalyzeIssue id :: r)
  | Thrown _ =>
      (mkState (issue s) (analysis s) false "Failed to analyze issue. Please try again."
         (isLoading s), [AnalyzeIssue id])
  end.

(** Line 218: the only card with an analyze button. *)
Definition showsAnalyzeCard (s : State) : bool :=
  match issue s, analysis s with
  | Some i, None => status i =? "new"
  | _, _ => false
  end.

End IssueDetailsReload.

(** ** Dashboard (second component of frontend/src/pages/IssueDetails.js) *)

Module Dashboard.

(** The answer of [GET /api/dashboard]. *)
Record Stats := mkStats {
  total_issues : Z;
  completed_issues : Z;
  diy_issues : Z;
  professional_issues : Z;
  total_cost : Q;
  completion_rate : Q
}.

Record State := mkState {
  issues : list Issue;
  stats : option Stats;
  showUpload : bool;
  isLoading : bool;
  error : string
}.

(** Lines 403-407. *)
Definition initial : State := mkState [] None false true "".

(** [loadData] (lines 413-429): both answers are awaited together, and
    nothing is stored unless both arrive. *)
Definition loadData (getIssues : Response (list Issue)) (getStats : Response Stats)
    (s : State) : State :=
  match getIssues, getStats with
  | Resolved issuesData, Resolved statsData =>
      mkState issuesData (Some statsData) (showUpload s) false (error s)
  | _, _ => mkState (issues s) (stats s) (showUpload s) false "Failed to load dashboard data"
  end.

(** [handleUploadSuccess] (lines 431-434). *)
Definition handleUploadSuccess (getIssues : Response (list Issue))
    (getStats : Response Stats) (s : State) : State :=
  loadData getIssues getStats (mkState (issues s) (stats s) false (isLoading s) (error s)).

(** [handleDeleteIssue] (lines 436-446). *)
Definition handleDeleteIssue (deleteIssue : Z -> Response string)
    (getIssues : Response (list Issue)) (getStats : Response Stats)
    (confirmed : bool) (issueId : Z) (s : State) : State * list Request :=
  if confirmed then
    match deleteIssue issueId with
    | Resolved _ => (loadData getIssues getStats s, [DeleteIssue issueId])
    | Thrown _ =>
        (mkState (issues s) (stats s) (showUpload s) (isLoading s) "Failed to delete issue",
         [DeleteIssue issueId])
    end
  else (s, []).

(** The rows of "Recent Issues": [issues.slice(0, 10)]. *)
Definition recentIssues (s : State) : list Issue := firstn 10 (issues s).

(** [barData] (lines 465-470). *)
Definition barData (s : State) : list (string * Z) :=
  match stats s with
  | Some st =>
      [ ("Total", total_issues st); ("Completed", completed_issues st);
        ("DIY", diy_issues st); ("Professional", professional_issues st) ]
  | None => []
  end.

(** [pieData] (lines 460-463), without the colours. *)
Definition pieData (s : State) : list (string * Z) :=
  match stats s with
  | Some st => [ ("DIY Repairs", diy_issues st); ("Professional", professional_issues st) ]
  | None => []
  end.

End Dashboard.

(** ** ChatInterface (second component of unnamed/part_001) *)

Module Chat.

Record Message := mkMessage {
  msg_id : Z;
  type : string;
  message : string;
  timestamp : Z
}.

Record State := mkState {
  messages : list Message;
  currentMessage : string;
  isLoading : bool
}.

(** [sendMessage] (lines 156-194).  [t1] and [t2] are the
    clock readings when the user's message and the answer are built;
    [backend] answers [POST /api/chat] with the [response] field. *)
Definition sendMessage (backend : string -> option Z -> Response string)
    (issueId : option Z) (t1 t2 : Z) (s : State) : State * list Request :=
  if negb (Js.truthyStr (Js.trim (currentMessage s))) || isLoading s then (s, [])
  else
    let userMessage := mkMessage t1 "user" (currentMessage s) t1 in
    let reply :=
      match backend (currentMessage s) issueId with
      | Resolved response => mkMessage (t2 + 1) "bot" response t2
      | Thrown _ =>
          mkMessage (t2 + 1) "bot" "Sorry, I encountered an error. Please try again." t2
      end in
    (mkState ((messages s ++ [userMessage]) ++ [reply]) "" false,
     [SendMessage (currentMessage s) issueId]).

(** [handleKeyPress] (lines 195-200): Enter without Shift sends. *)
Definition handleKeyPress (backend : string -> option Z -> Response string)
    (issueId : option Z) (t1 t2 : Z) (key : string) (shiftKey : bool) (s : State)
  : State * list Request :=
  if (key =? "Enter") && negb shiftKey then sendMessage backend issueId t1 t2 s
  else (s, []).

End Chat.

(** ** The backend operations the client relies on *)

Module Orchestrator.

(** Modelled from the spec: the error taxonomy of section 7.  The backend
    (backend/app/main.py behind [/api/issues/{id}/call-maintenance]) is not
    among the sources. *)
Inductive Failure : Type :=
| MalformedPlan
| AnalysisUnavailable
| NotEligibleForProfessional
| ProviderUnavailable
| NotFound.

(** Modelled from the spec: the stored issue of section 3, reduced to the
    fields the operations read or write. *)
Record StoredIssue := mkStoredIssue {
  issueId : Z;
  issueStatus : string;
  repairPlan : option RepairPlan
}.

(** Modelled from the spec: the audit event of section 3. *)
Record AuditEvent := mkAuditEvent {
  audit_issueId : Z;
  audit_providerId : Z;
  audit_timestamp : Z;
  audit_outcome : bool
}.

(** Modelled from the spec: issue store, provider registry and audit log. *)
Record Store := mkStore {
  issues : list StoredIssue;
  registry : list Provider;
  auditLog : list AuditEvent
}.

(** Modelled from the spec: lookup of an issue by id. *)
Definition findIssue (i : Z) (st : Store) : option StoredIssue :=
  find (fun x => (issueId x =? i)%Z) (issues st).

(** Modelled from the spec: lookup of a provider by id. *)
Definition findProvider (p : Z) (st : Store) : option Provider :=
  find (fun x => (provider_id x =? p)%Z) (registry st).

(** Modelled from the spec: the status update of a stored issue. *)
Definition setStatus (i : Z) (s : string) (l : list StoredIssue) : list StoredIssue :=
  map (fun x => if (issueId x =? i)%Z then mkStoredIssue (issueId x) s (repairPlan x) else x) l.

(** Modelled from the spec: [contactProvider(issueId, providerId)] of
    section 4.4.  Unknown issue: [NotFound].  Precondition: the plan's
    [isDiy] must be false, otherwise [NotEligibleForProfessional] (an issue
    without a plan has none that is false).  The provider must exist and be
    [available], otherwise [ProviderUnavailable].  On success the issue
    moves to [maintenance_called] and one audit event is appended. *)
Definition contactProvider (now : Z) (i p : Z) (st : Store) : Store * option Failure :=
  match findIssue i st with
  | None => (st, Some NotFound)
  | Some x =>
      match option_map is_diy (repairPlan x) with
      | Some (Some false) =>
          match findProvider p st with
          | Some pr =>
              if availability pr =? "available" then
                (mkStore (setStatus i "maintenance_called" (issues st)) (registry st)
                   (auditLog st ++ [mkAuditEvent i p now true]), None)
              else (st, Some ProviderUnavailable)
          | None => (st, Some ProviderUnavailable)
          end
      | _ => (st, Some NotEligibleForProfessional)
      end
  end.

(** Modelled from the spec: the wire answer the client's [callMaintenance]
    sees; a failure is thrown with the failure's name as [detail]. *)
Definition failureName (f : Failure) : string :=
  match f with
  | MalformedPlan => "MalformedPlan"
  | AnalysisUnavailable => "AnalysisUnavailable"
  | NotEligibleForProfessional => "NotEligibleForProfessional"
  | ProviderUnavailable => "ProviderUnavailable"
  | NotFound => "NotFound"
  end.

(** Modelled from the spec: [POST /api/issues/{id}/call-maintenance] as the
    client's handler sees it, on a given store. *)
Definition callMaintenance (now : Z) (st : Store) (i p : Z) : Response string :=
  match snd (contactProvider now i p st) with
  | None => Resolved "ok"
  | Some f => Thrown (mkApiError (Some (failureName f)) None)
  end.

End Orchestrator.

Module Aggregator.

(** Modelled from the spec: [totalIssues] of section 4.5; the backend
    behind [GET /api/dashboard] is not among the sources. *)
Definition totalIssues (l : list Issue) : nat := List.length l.

(** Modelled from the spec: [completedIssues], the count where
    [status == completed]. *)
Definition completedIssues (l : list Issue) : nat :=
  List.length (filter (fun i => status i =? "completed") l).

(** Modelled from the spec:
    [completionRate = completedIssues / totalIssues * 100], and [0] when
    [totalIssues == 0]. *)
Definition completionRate (l : list Issue) : Q :=
  if Nat.eqb (totalIssues l) 0 then 0%Q
  else (inject_Z (Z.of_nat (completedIssues l)) / inject_Z (Z.of_nat (totalIssues l)) * 100)%Q.

End Aggregator.

(** ** Sample data *)

(** A professional plan with the given diagnosis and provider hint. *)
Definition planOf (diag hint : option string) : RepairPlan :=
  mkRepairPlan diag (Some false) None None None None hint.

Definition samplePlumber : Provider :=
  mkProvider 7 "Ada Pipes" "plumbing" 4.5 "ada@example.org" "555-0100" "available".

Definition sampleHandyman : Provider :=
  mkProvider 9 "Bo Fixit" "general" 4 "bo@example.org" "555-0101" "available".

(** A registry holding [sampleHandyman] under [general] and nobody else. *)
Definition generalOnly (q : option string) : Response (list Provider) :=
  match q with
  | Some s => if s =? "general" then Resolved [sampleHandyman] else Resolved []
  | None => Resolved [sampleHandyman]
  end.

(** A registry without providers. *)
Definition emptyRegistry (q : option string) : Response (list Provider) := Resolved [].

(** A do-it-yourself plan. *)
Definition diyPlan : RepairPlan :=
  mkRepairPlan (Some "Loose cabinet hinge") (Some true) None None None None None.

(** A completed issue as the page holds it, and a fresh analysis of it. *)
Definition completedIssue : Issue :=
  mkIssue 5 "Tap drips" (Some "uploads/5.jpg") "completed" (Some "Worn washer")
    None "2024-01-01" "2024-01-02".

Definition freshAnalysis : Analysis :=
  mkAnalysis (Some (planOf (Some "Corroded valve seat") (Some "plumber")))
    (Some "graph TD; A-->B") (Some "A -> B").

Definition loadedPage : Page.State :=
  Page.mkState (Some completedIssue) None false "" false.

(** A backend store with one analysed do-it-yourself issue and one provider. *)
Definition diyStore : Orchestrator.Store :=
  Orchestrator.mkStore [Orchestrator.mkStoredIssue 5 "analyzed" (Some diyPlan)]
    [samplePlumber] [].

(** Ten issues, three of them completed. *)
Definition issueWithStatus (n : Z) (st : string) : Issue :=
  mkIssue n "" None st None None "" "".

Definition tenIssues : list Issue :=
  [ issueWithStatus 1 "completed"; issueWithStatus 2 "new";
    issueWithStatus 3 "analyzed"; issueWithStatus 4 "completed";
    issueWithStatus 5 "in-progress"; issueWithStatus 6 "maintenance_called";
    issueWithStatus 7 "completed"; issueWithStatus 8 "new";
    issueWithStatus 9 "new"; issueWithStatus 10 "analyzed" ].

(** Steps numbered from zero, as a plan may number them. *)
Definition zeroBasedSteps : list Step :=
  [ mkStep (Some 0%Z) "Shut the valve" None None;
    mkStep (Some 1%Z) "Open the tap" None None;
    mkStep None "Replace the washer" (Some ["wrench"]) None ].

(** A backend that accepts every new issue. *)
Definition acceptIssue (image description : string) : Response string := Resolved "created".

(** * Properties *)

(** ** Text primitives *)

Lemma prefix_app (p s : string) :
  prefix p s = true <-> exists b, s = (p ++ b)%string.
Proof.
  revert s; induction p as [|c p IH]; intros [|d s]; simpl.
  - split; [intros _; now exists "" | reflexivity].
  - split; [intros _; now exists (String d s) | reflexivity].
  - split; [discriminate | intros [b Hb]; discriminate].
  - destruct (Ascii.ascii_dec c d) as [->|Hne].
    + rewrite IH. split; intros [b Hb]; exists b; [now rewrite Hb | now inversion Hb].
    + split; [discriminate | intros [b Hb]; inversion Hb; congruence].
Qed.

Lemma includes_unfold (s pat : string) :
  Js.includes s pat =
  if prefix pat s then true
  else match s with
       | EmptyString => false
       | String _ r => Js.includes r pat
       end.
Proof.
  destruct s; reflexivity.
Qed.

(** [includes] is the substring test. *)
Lemma includes_app (s pat : string) :
  Js.includes s pat = true <-> exists a b, s = (a ++ pat ++ b)%string.
Proof.
  induction s as [|c s IH]; rewrite includes_unfold.
  - destruct (prefix pat "") eqn:E.
    + split; [intros _ | reflexivity].
      apply prefix_app in E. destruct E as [b Hb]. now exists "", b.
    + split; [discriminate |].
      intros (a & b & H). destruct a; simpl in H.
      * assert (prefix pat "" = true) by (apply prefix_app; now exists b). congruence.
      * discriminate.
  - destruct (prefix pat (String c s)) eqn:E.
    + split; [intros _ | reflexivity].
      apply prefix_app in E. destruct E as [b Hb]. now exists "", b.
    + rewrite IH. split.
      * intros (a & b & H). exists (String c a), b. simpl. now rewrite H.
      * intros (a & b & H). destruct a as [|d a]; simpl in H.
        -- assert (prefix pat (String c s) = true) by (apply prefix_app; now exists b).
           congruence.
        -- inversion H. now exists a, b.
Qed.

Lemma lowerChar_idem (c : ascii) : Js.lowerChar (Js.lowerChar c) = Js.lowerChar c.
Proof.
  destruct c as [[] [] [] [] [] [] [] []]; reflexivity.
Qed.

Lemma toLowerCase_idem (s : string) : Js.toLowerCase (Js.toLowerCase s) = Js.toLowerCase s.
Proof.
  induction s as [|c s IH]; simpl; [reflexivity | now rewrite lowerChar_idem, IH].
Qed.

Lemma toLowerCase_length (s : string) : String.length (Js.toLowerCase s) = String.length s.
Proof.
  induction s as [|c s IH]; simpl; congruence.
Qed.

Lemma trimStart_empty (s : string) :
  Js.trimStart s = "" <-> Js.allWhite s = true.
Proof.
  induction s as [|c s IH]; simpl.
  - tauto.
  - destruct (Js.isWhiteSpace c); simpl; [exact IH | split; discriminate].
Qed.

Lemma trimEnd_empty (s : string) :
  Js.trimEnd s = "" <-> Js.allWhite s = true.
Proof.
  induction s as [|c s IH]; simpl.
  - tauto.
  - destruct (Js.trimEnd s) eqn:E.
    + destruct (Js.isWhiteSpace c); simpl.
      * split; [intros _; now apply IH | reflexivity].
      * split; discriminate.
    + split; [discriminate |].
      intros H. apply andb_true_iff in H. destruct H as [_ H].
      apply IH in H. discriminate.
Qed.

Lemma trimStart_allWhite_head (s : string) :
  Js.allWhite (Js.trimStart s) = Js.allWhite s.
Proof.
  induction s as [|c s IH]; simpl; [reflexivity|].
  destruct (Js.isWhiteSpace c) eqn:E; simpl; [exact IH | now rewrite E].
Qed.

(** The text is blank for [trim] exactly when all its characters are white
    space. *)
Lemma trim_empty (s : string) : Js.trim s = "" <-> Js.allWhite s = true.
Proof.
  unfold Js.trim. rewrite trimEnd_empty, trimStart_allWhite_head. tauto.
Qed.

Lemma truthy_trim (s : string) :
  Js.truthyStr (Js.trim s) = negb (Js.allWhite s).
Proof.
  unfold Js.truthyStr.
  destruct (Js.allWhite s) eqn:E.
  - apply trim_empty in E. now rewrite E.
  - destruct (Js.trim s =? "") eqn:T; [|reflexivity].
    apply String.eqb_eq, trim_empty in T. congruence.
Qed.

Lemma truthyStr_true (s : string) : Js.truthyStr s = true <-> s <> "".
Proof.
  unfold Js.truthyStr. destruct (s =? "") eqn:E; simpl.
  - apply String.eqb_eq in E. split; [discriminate | congruence].
  - apply String.eqb_neq in E. tauto.
Qed.

(** ** The specialty matcher (unnamed/part_003) *)

Lemma fromDiagnosis_firstHit (p : RepairPlan) :
  Matcher.fromDiagnosis (Some p) = firstHit diagnosisFamilies (diagnosisText p).
Proof.
  unfold Matcher.fromDiagnosis, diagnosisText.
  assert (D : (match diagnosis p with
               | Some d => if Js.truthyStr (Js.toLowerCase d) then Js.toLowerCase d else ""
               | None => ""
               end) = match diagnosis p with Some d => Js.toLowerCase d | None => "" end).
  { destruct (diagnosis p) as [d|]; [|reflexivity].
    unfold Js.truthyStr. destruct (Js.toLowerCase d =? "") eqn:E; simpl; [|reflexivity].
    apply String.eqb_eq in E. now rewrite E. }
  rewrite D. simpl. rewrite !orb_false_r, !orb_assoc. reflexivity.
Qed.

Lemma fromRecommended_firstHit (h : string) :
  Matcher.fromRecommended h = firstHit hintFamilies (Js.toLowerCase h).
Proof.
  unfold Matcher.fromRecommended. simpl. rewrite !orb_false_r.
  destruct (Js.includes (Js.toLowerCase h) "plumb"); [reflexivity|].
  destruct (Js.includes (Js.toLowerCase h) "electric"); [reflexivity|].
  destruct (Js.includes (Js.toLowerCase h) "appliance"); [reflexivity|].
  destruct (Js.includes (Js.toLowerCase h) "general");
    destruct (Js.toLowerCase h =? "general"); reflexivity.
Qed.

Lemma firstHit_in (families : list (list string * string)) (text : string) :
  Forall (fun f => In (snd f) categories) families ->
  In (firstHit families text) categories.
Proof.
  induction 1 as [|[kws c] rest Hc _ IH]; simpl.
  - right; right; right; now left.
  - destruct (existsb (Js.includes text) kws); [exact Hc | exact IH].
Qed.

Lemma hintFamilies_categories :
  Forall (fun f => In (snd f) categories) hintFamilies.
Proof.
  repeat constructor; simpl; tauto.
Qed.

Lemma diagnosisFamilies_categories :
  Forall (fun f => In (snd f) categories) diagnosisFamilies.
Proof.
  repeat constructor; simpl; tauto.
Qed.

Lemma fromDiagnosis_None : Matcher.fromDiagnosis None = "general".
Proof. reflexivity. Qed.

Lemma specialty_in_categories (plan : option RepairPlan) :
  In (Matcher.specialty plan) categories.
Proof.
  destruct plan as [p|]; simpl.
  - destruct (recommended_provider p) as [h|].
    + destruct (Js.truthyStr h).
      * rewrite fromRecommended_firstHit. apply firstHit_in, hintFamilies_categories.
      * rewrite fromDiagnosis_firstHit. apply firstHit_in, diagnosisFamilies_categories.
    + rewrite fromDiagnosis_firstHit. apply firstHit_in, diagnosisFamilies_categories.
  - rewrite fromDiagnosis_None. simpl; tauto.
Qed.

Lemma category_params (c : string) :
  In c categories -> getProvidersParams (Some c) = Some c.
Proof.
  simpl. intros [<-|[<-|[<-|[<-|[]]]]]; reflexivity.
Qed.

Lemma specialty_params (plan : option RepairPlan) :
  getProvidersParams (Some (Matcher.specialty plan)) = Some (Matcher.specialty plan).
Proof.
  apply category_params, specialty_in_categories.
Qed.

(** C2.  On a plan without [recommended_provider] the matcher returns the
    category of the first keyword family, in the order plumbing, electrical,
    appliances, that has a keyword occurring in the lower-cased diagnosis,
    and [general] when none has; the result is one of the four category
    names.  "leaking pipe and electrical outlet" and "water leaking under
    sink" both give [plumbing]. *)
Theorem specialty_without_hint :
  (forall p : RepairPlan,
      recommended_provider p = None ->
      Matcher.specialty (Some p) = firstHit diagnosisFamilies (diagnosisText p)
      /\ In (Matcher.specialty (Some p)) categories)
  /\ Matcher.specialty (Some (planOf (Some "leaking pipe and electrical outlet") None))
     = "plumbing"
  /\ Matcher.specialty (Some (planOf (Some "water leaking under sink") None)) = "plumbing".
Proof.
  split; [|split; reflexivity].
  intros p H. split; [|apply specialty_in_categories].
  simpl. rewrite H. apply fromDiagnosis_firstHit.
Qed.

Lemma specialty_without_hint_witness :
  Matcher.specialty (Some (planOf (Some "The Outlet sparks") None))
  = firstHit diagnosisFamilies (diagnosisText (planOf (Some "The Outlet sparks") None))
  /\ In (Matcher.specialty (Some (planOf (Some "The Outlet sparks") None))) categories.
Proof.
  apply (proj1 specialty_without_hint). reflexivity.
Defined.

(** C3, as stated: on every plan that carries a hint, the matcher's result is
    the first hit of the lower-cased hint in the hint table.  It fails for
    the empty hint, which the test [if (repairPlan?.recommended_provider)]
    treats as absent: the diagnosis decides. *)
Lemma specialty_with_hint_counterexample :
  ~ (forall (p : RepairPlan) (h : string),
        recommended_provider p = Some h ->
        Matcher.specialty (Some p) = firstHit hintFamilies (Js.toLowerCase h)).
Proof.
  intros H.
  specialize (H (planOf (Some "water leak") (Some "")) "" eq_refl).
  discriminate H.
Qed.

(** C3, amended.  On a plan with a non-empty hint the matcher lower-cases
    the hint and returns the first hit in the order "plumb" (plumbing),
    "electric" (electrical), "appliance" (appliances), "general" (general),
    and [general] for a hint none of them occurs in; whatever the plan, the
    result is one of the four category names. *)
Theorem specialty_with_hint (p : RepairPlan) (h : string) :
  recommended_provider p = Some h ->
  h <> "" ->
  Matcher.specialty (Some p) = firstHit hintFamilies (Js.toLowerCase h)
  /\ In (Matcher.specialty (Some p)) categories.
Proof.
  intros Hp Hh. split; [|apply specialty_in_categories].
  simpl. rewrite Hp. apply truthyStr_true in Hh. rewrite Hh.
  apply fromRecommended_firstHit.
Qed.

Lemma specialty_with_hint_witness :
  Matcher.specialty (Some (planOf None (Some "Licensed ELECTRICIAN")))
  = firstHit hintFamilies (Js.toLowerCase "Licensed ELECTRICIAN")
  /\ In (Matcher.specialty (Some (planOf None (Some "Licensed ELECTRICIAN")))) categories.
Proof.
  apply (specialty_with_hint (planOf None (Some "Licensed ELECTRICIAN"))
           "Licensed ELECTRICIAN"); [reflexivity | discriminate].
Defined.

(** C4.  The lookup of part_003 first asks the registry for the matched
    specialty.  When that answer is non-empty, or the specialty is already
    [general], it is the result and nothing else is asked.  When it is
    empty and the specialty is not [general], exactly one more request, for
    [general], follows, and its answer is the result: an empty answer gives
    an empty provider list and leaves the error message as it was. *)
Theorem loadProviders_fallback
    (registry : option string -> Response (list Provider))
    (plan : option RepairPlan) (s : MPState) (l : list Provider) :
  registry (Some (Matcher.specialty plan)) = Resolved l ->
  (l <> [] \/ Matcher.specialty plan = "general" ->
   Matcher.loadProviders registry plan s
   = (setProviders l s, [GetProviders (Some (Matcher.specialty plan))]))
  /\ (l = [] -> Matcher.specialty plan <> "general" ->
      forall l', registry (Some "general") = Resolved l' ->
        Matcher.loadProviders registry plan s
        = (setProviders l' s,
           [GetProviders (Some (Matcher.specialty plan)); GetProviders (Some "general")])
        /\ error (fst (Matcher.loadProviders registry plan s)) = error s
        /\ (l' = [] -> providers (fst (Matcher.loadProviders registry plan s)) = [])).
Proof.
  intros Hr. unfold Matcher.loadProviders. rewrite specialty_params, Hr.
  split.
  - intros [Hl|Hg].
    + destruct l; [congruence | reflexivity].
    + rewrite Hg. simpl. now rewrite andb_false_r.
  - intros -> Hg l' Hr'.
    apply String.eqb_neq in Hg. rewrite Hg. simpl.
    change (getProvidersParams (Some "general")) with (Some "general").
    rewrite Hr'. simpl. repeat split. now intros ->.
Qed.

Lemma loadProviders_fallback_witness :
  Matcher.loadProviders generalOnly (Some (planOf (Some "dripping water") None)) mpInitial
  = (setProviders [sampleHandyman] mpInitial,
     [GetProviders (Some "plumbing"); GetProviders (Some "general")]).
Proof.
  apply (proj2 (loadProviders_fallback generalOnly
                  (Some (planOf (Some "dripping water") None)) mpInitial [] eq_refl)
           eq_refl);
    [discriminate | reflexivity].
Defined.

(** C9, as stated: the two versions of [loadProviders] send the same
    requests.  A plan recommending a "Plumber" separates them on a registry
    without providers: part_003 asks for [plumbing] and then for [general],
    the other version asks once, for "Plumber". *)
Lemma loadProviders_versions_counterexample :
  ~ (forall (registry : option string -> Response (list Provider))
            (plan : option RepairPlan) (s : MPState),
        snd (Matcher.loadProviders registry plan s)
        = snd (Plain.loadProviders registry plan s)).
Proof.
  intros H.
  specialize (H emptyRegistry (Some (planOf None (Some "Plumber"))) mpInitial).
  discriminate H.
Qed.

(** C9, amended.  The two versions send the same requests and end in the
    same state when the hint is exactly one of the four category names and
    either it is [general] or the registry's answer for it is not the empty
    list.  (Otherwise they can differ: the version in
    frontend/src/components passes the hint on unchanged and never asks a
    second time.) *)
Theorem loadProviders_versions_agree
    (registry : option string -> Response (list Provider))
    (p : RepairPlan) (h : string) (s : MPState) :
  recommended_provider p = Some h ->
  In h categories ->
  h = "general" \/ registry (Some h) <> Resolved [] ->
  Matcher.loadProviders registry (Some p) s = Plain.loadProviders registry (Some p) s.
Proof.
  intros Hp Hin Hok.
  assert (Hs : Matcher.specialty (Some p) = h).
  { simpl. rewrite Hp. simpl in Hin.
    destruct Hin as [<-|[<-|[<-|[<-|[]]]]]; reflexivity. }
  assert (Hq : Plain.specialty (Some p) = Some h).
  { simpl. rewrite Hp. simpl in Hin.
    destruct Hin as [<-|[<-|[<-|[<-|[]]]]]; reflexivity. }
  unfold Matcher.loadProviders, Plain.loadProviders.
  rewrite Hs, Hq, (category_params h Hin).
  destruct (registry (Some h)) as [l|e] eqn:Hr; [|reflexivity].
  destruct Hok as [->|Hne].
  - simpl. now rewrite andb_false_r.
  - destruct l; [congruence | reflexivity].
Qed.

Lemma loadProviders_versions_agree_witness :
  Matcher.loadProviders generalOnly (Some (planOf None (Some "general"))) mpInitial
  = Plain.loadProviders generalOnly (Some (planOf None (Some "general"))) mpInitial.
Proof.
  apply (loadProviders_versions_agree generalOnly (planOf None (Some "general")) "general");
    [reflexivity | simpl; tauto | now left].
Defined.

(** ** Contacting a provider *)

Lemma contactProvider_not_eligible (now i p : Z) (st : Orchestrator.Store)
    (x : Orchestrator.StoredIssue) (plan : RepairPlan) :
  Orchestrator.findIssue i st = Some x ->
  Orchestrator.repairPlan x = Some plan ->
  is_diy plan = Some true ->
  Orchestrator.contactProvider now i p st
  = (st, Some Orchestrator.NotEligibleForProfessional).
Proof.
  intros Hx Hp Hd. unfold Orchestrator.contactProvider.
  rewrite Hx, Hp. simpl. now rewrite Hd.
Qed.

(** C1.  For an issue whose plan has [is_diy] true, [contactProvider] fails
    with [NotEligibleForProfessional] whatever the provider id, and the
    store (issue status and audit log included) is left as it was.  Seen
    from the client: the component of frontend/src/components renders
    nothing for such a plan, and both versions of [handleCallMaintenance]
    end without a success message and without calling [onProviderCalled]. *)
Theorem contactProvider_diy (now i : Z) (st : Orchestrator.Store)
    (x : Orchestrator.StoredIssue) (plan : RepairPlan) :
  Orchestrator.findIssue i st = Some x ->
  Orchestrator.repairPlan x = Some plan ->
  is_diy plan = Some true ->
  (forall p : Z,
      Orchestrator.contactProvider now i p st
      = (st, Some Orchestrator.NotEligibleForProfessional))
  /\ Plain.renders (Some plan) = false
  /\ (forall s : MPState,
         snd (Matcher.handleCallMaintenance (Orchestrator.callMaintenance now st) (Some i) s)
         = []
         /\ snd (Plain.handleCallMaintenance (Orchestrator.callMaintenance now st) (Some i) s)
            = []
         /\ (snd (fst (Matcher.handleCallMaintenance
                         (Orchestrator.callMaintenance now st) (Some i) s)) <> [] ->
             success (fst (fst (Matcher.handleCallMaintenance
                                  (Orchestrator.callMaintenance now st) (Some i) s))) = ""
             /\ error (fst (fst (Matcher.handleCallMaintenance
                                   (Orchestrator.callMaintenance now st) (Some i) s)))
                = "Failed to send maintenance request: NotEligibleForProfessional")).
Proof.
  intros Hx Hp Hd.
  assert (Hc : forall p, Orchestrator.callMaintenance now st i p
                         = Thrown (mkApiError (Some "NotEligibleForProfessional") None)).
  { intros p. unfold Orchestrator.callMaintenance.
    now rewrite (contactProvider_not_eligible now i p st x plan Hx Hp Hd). }
  split; [intros p; now apply (contactProvider_not_eligible now i p st x plan)|].
  split; [simpl; now rewrite Hd|].
  intros s. unfold Matcher.handleCallMaintenance, Plain.handleCallMaintenance.
  destruct (selectedProvider s) as [sp|]; [|now repeat split].
  destruct (Js.truthyNum (Some i)); [|now repeat split].
  rewrite Hc. simpl. repeat split.
Qed.

Lemma contactProvider_diy_witness :
  Orchestrator.contactProvider 100 5 7 diyStore
  = (diyStore, Some Orchestrator.NotEligibleForProfessional).
Proof.
  apply (proj1 (contactProvider_diy 100 5 diyStore
                  (Orchestrator.mkStoredIssue 5 "analyzed" (Some diyPlan)) diyPlan
                  eq_refl eq_refl eq_refl)).
Defined.

(** ** Analysis on the issue page *)

(** C5, as stated: a successful re-analysis of a completed issue leaves the
    status at [completed].  On the page of frontend/src/pages the updater
    writes [status: 'analyzed'] unconditionally. *)
Lemma reanalysis_keeps_completed_counterexample :
  ~ (forall (analyze : Z -> Response Analysis) (n : Z) (s : Page.State)
            (i : Issue) (result : Analysis),
        Page.issue s = Some i ->
        status i = "completed" ->
        analyze n = Resolved result ->
        option_map status (Page.issue (fst (IssueDetails.analyzeIssue analyze n s)))
        = Some "completed").
Proof.
  intros H.
  specialize (H (fun _ => Resolved freshAnalysis) 5%Z loadedPage completedIssue
                freshAnalysis eq_refl eq_refl eq_refl).
  discriminate H.
Qed.

(** C5, amended.  On the page of frontend/src/pages a successful analysis
    stores the new result, sets the displayed status to [analyzed] whatever
    it was before (also from [completed]), takes the new plan's diagnosis
    when it is non-empty and keeps the previous one otherwise, and changes
    nothing else of the issue.  On the page of part_002 the displayed issue
    after a successful analysis is the one the store returns on the
    re-read, status included. *)
Theorem reanalysis_status (analyze : Z -> Response Analysis) (n : Z) (s : Page.State)
    (i : Issue) (result : Analysis) :
  Page.issue s = Some i ->
  analyze n = Resolved result ->
  (exists i',
      Page.issue (fst (IssueDetails.analyzeIssue analyze n s)) = Some i'
      /\ status i' = "analyzed"
      /\ issue_diagnosis i'
         = Js.orElse (match analysis_repair_plan result with
                      | Some p => diagnosis p
                      | None => None
                      end) (issue_diagnosis i)
      /\ issue_id i' = issue_id i
      /\ issue_description i' = issue_description i
      /\ image_path i' = image_path i
      /\ repair_plan i' = repair_plan i
      /\ created_at i' = created_at i
      /\ updated_at i' = updated_at i)
  /\ Page.analysis (fst (IssueDetails.analyzeIssue analyze n s)) = Some result
  /\ (forall parse getIssue stored,
         getIssue n = Resolved stored ->
         Page.issue (fst (IssueDetailsReload.analyzeIssue parse analyze getIssue n s))
         = Some stored).
Proof.
  intros Hi Ha. unfold IssueDetails.analyzeIssue. rewrite Ha, Hi. simpl.
  split; [|split].
  - eexists. split; [reflexivity|]. simpl. repeat split.
  - reflexivity.
  - intros parse getIssue stored Hg.
    unfold IssueDetailsReload.analyzeIssue, IssueDetailsReload.loadIssue.
    rewrite Ha, Hg.
    destruct (Js.truthyOpt (repair_plan stored)); [|reflexivity].
    destruct (repair_plan stored) as [t|]; [|reflexivity].
    destruct (parse t); reflexivity.
Qed.

Lemma reanalysis_status_witness :
  option_map status
    (Page.issue (fst (IssueDetails.analyzeIssue (fun _ => Resolved freshAnalysis) 5
                        loadedPage)))
  = Some "analyzed".
Proof.
  destruct (proj1 (reanalysis_status (fun _ => Resolved freshAnalysis) 5 loadedPage
                     completedIssue freshAnalysis eq_refl eq_refl))
    as (i' & Hi & Hs & _).
  rewrite Hi. simpl. now rewrite Hs.
Defined.

(** C6.  When the analysis request fails, the page keeps the issue (status
    and stored plan included) and the previous analysis result exactly as
    they were, shows "Failed to analyze issue. Please try again.", is no
    longer analysing, and has sent nothing but the analysis request.  This
    holds for both versions of the page. *)
Theorem analyzeIssue_failure (analyze : Z -> Response Analysis) (n : Z) (s : Page.State)
    (e : ApiError) :
  analyze n = Thrown e ->
  IssueDetails.analyzeIssue analyze n s
  = (Page.mkState (Page.issue s) (Page.analysis s) false
       "Failed to analyze issue. Please try again." (Page.isLoading s),
     [AnalyzeIssue n])
  /\ forall parse getIssue,
      IssueDetailsReload.analyzeIssue parse analyze getIssue n s
      = (Page.mkState (Page.issue s) (Page.analysis s) false
           "Failed to analyze issue. Please try again." (Page.isLoading s),
         [AnalyzeIssue n]).
Proof.
  intros Ha. unfold IssueDetails.analyzeIssue, IssueDetailsReload.analyzeIssue.
  rewrite Ha. split; reflexivity.
Qed.

Lemma analyzeIssue_failure_witness :
  IssueDetails.analyzeIssue (fun _ => Thrown (mkApiError None (Some "timeout"))) 5 loadedPage
  = (Page.mkState (Some completedIssue) None false
       "Failed to analyze issue. Please try again." false,
     [AnalyzeIssue 5]).
Proof.
  apply (proj1 (analyzeIssue_failure (fun _ => Thrown (mkApiError None (Some "timeout")))
                  5 loadedPage (mkApiError None (Some "timeout")) eq_refl)).
Defined.

(** ** Dashboard statistics *)

Lemma completedIssues_le_total (l : list Issue) :
  (Aggregator.completedIssues l <= Aggregator.totalIssues l)%nat.
Proof.
  apply filter_length_le.
Qed.

(** C7.  [completionRate] is [0] on the empty collection; on a non-empty
    one it is [completedIssues / totalIssues * 100]; on a collection of ten
    issues with three completed it is [30]. *)
Theorem completionRate_spec (l : list Issue) :
  (Aggregator.totalIssues l = 0%nat -> Aggregator.completionRate l == 0)
  /\ (Aggregator.totalIssues l <> 0%nat ->
      Aggregator.completionRate l
      == inject_Z (Z.of_nat (Aggregator.completedIssues l))
         / inject_Z (Z.of_nat (Aggregator.totalIssues l)) * 100)
  /\ (Aggregator.totalIssues l = 10%nat -> Aggregator.completedIssues l = 3%nat ->
      Aggregator.completionRate l == 30).
Proof.
  unfold Aggregator.completionRate. repeat split.
  - intros ->. reflexivity.
  - intros H. apply Nat.eqb_neq in H. rewrite H. reflexivity.
  - intros -> ->. reflexivity.
Qed.

Lemma completionRate_spec_witness :
  Aggregator.completionRate tenIssues == 30 /\ Aggregator.completionRate [] == 0.
Proof.
  split.
  - apply (proj2 (proj2 (completionRate_spec tenIssues))); reflexivity.
  - apply (proj1 (completionRate_spec [])); reflexivity.
Defined.

(** ** Step numbers *)

Lemma stepNumbersFrom_nth (l : list Step) (k i : nat) (st : Step) :
  nth_error l i = Some st ->
  nth_error (FlowchartDisplay.stepNumbersFrom k l) i
  = Some (FlowchartDisplay.stepNumber st (k + i)).
Proof.
  revert k i; induction l as [|a l IH]; intros k [|i] H; simpl in *; try discriminate.
  - inversion H. now rewrite Nat.add_0_r.
  - rewrite (IH (S k) i H). now rewrite Nat.add_succ_r.
Qed.

(** C8, as stated: a step whose [step] field is present is shown with that
    number.  The expression [step.step || index + 1] falls back to the
    position for the number [0] as well. *)
Lemma stepNumber_present_counterexample :
  ~ (forall (st : Step) (index : nat) (n : Z),
        step st = Some n -> FlowchartDisplay.stepNumber st index = n).
Proof.
  intros H.
  specialize (H (mkStep (Some 0%Z) "Shut the valve" None None) 2%nat 0%Z eq_refl).
  discriminate H.
Qed.

(** C8, amended.  The step at (0-based) position [i] of the step list is
    shown with its 1-based position [i + 1] when its [step] field is absent
    or [0], and with the value of the field when that is present and not
    [0]. *)
Theorem stepNumber_shown (l : list Step) (i : nat) (st : Step) :
  nth_error l i = Some st ->
  (step st = None \/ step st = Some 0%Z ->
   nth_error (FlowchartDisplay.stepNumbersFrom 0 l) i = Some (Z.of_nat i + 1)%Z)
  /\ (forall n : Z, step st = Some n -> n <> 0%Z ->
      nth_error (FlowchartDisplay.stepNumbersFrom 0 l) i = Some n).
Proof.
  intros H. rewrite (stepNumbersFrom_nth l 0 i st H). simpl.
  unfold FlowchartDisplay.stepNumber. split.
  - intros [-> | ->]; reflexivity.
  - intros n -> Hn. apply Z.eqb_neq in Hn. simpl. now rewrite Hn.
Qed.

Lemma stepNumber_shown_witness :
  nth_error (FlowchartDisplay.stepNumbersFrom 0 zeroBasedSteps) 2 = Some 3%Z
  /\ nth_error (FlowchartDisplay.stepNumbersFrom 0 zeroBasedSteps) 1 = Some 1%Z.
Proof.
  split.
  - apply (proj1 (stepNumber_shown zeroBasedSteps 2
                    (mkStep None "Replace the washer" (Some ["wrench"]) None) eq_refl)).
    now left.
  - apply (proj2 (stepNumber_shown zeroBasedSteps 1
                    (mkStep (Some 1%Z) "Open the tap" None None) eq_refl) 1%Z eq_refl).
    discriminate.
Defined.

(** ** Reporting an issue *)

(** C10.  A submission without an image, or with a description that is
    empty or white space only, sets the error to 'Please provide both an
    image and description', sends no request, calls no callback and leaves
    every other state field as it was.  A request is sent only with an
    image and a non-blank description, and then it is the one
    issue-creation request with that image and the description as typed. *)
Theorem handleSubmit_validation (backend : string -> string -> Response string)
    (s : ImageUpload.State) :
  (ImageUpload.selectedImage s = None \/ Js.allWhite (ImageUpload.description s) = true ->
   ImageUpload.handleSubmit backend s
   = (ImageUpload.mkState (ImageUpload.selectedImage s) (ImageUpload.description s)
        (ImageUpload.isRecording s) (ImageUpload.isUploading s)
        "Please provide both an image and description" (ImageUpload.success s),
      [], []))
  /\ (snd (fst (ImageUpload.handleSubmit backend s)) <> [] ->
      exists image,
        ImageUpload.selectedImage s = Some image
        /\ Js.allWhite (ImageUpload.description s) = false
        /\ snd (fst (ImageUpload.handleSubmit backend s))
           = [CreateIssue image (ImageUpload.description s)]).
Proof.
  unfold ImageUpload.handleSubmit. rewrite truthy_trim, negb_involutive. split.
  - intros [H|H].
    + now rewrite H.
    + rewrite H. now destruct (ImageUpload.selectedImage s).
  - destruct (ImageUpload.selectedImage s) as [image|]; [|simpl; congruence].
    destruct (Js.allWhite (ImageUpload.description s)); [simpl; congruence|].
    intros _. exists image.
    destruct (backend image (ImageUpload.description s)); simpl; auto.
Qed.

Lemma handleSubmit_validation_witness :
  ImageUpload.handleSubmit acceptIssue
    (ImageUpload.mkState (Some "sink.jpg") "   " false false "" "")
  = (ImageUpload.mkState (Some "sink.jpg") "   " false false
       "Please provide both an image and description" "", [], []).
Proof.
  apply (proj1 (handleSubmit_validation acceptIssue
                  (ImageUpload.mkState (Some "sink.jpg") "   " false false "" ""))).
  right. reflexivity.
Defined.

(** ** Further properties of the provider lookup *)

(** Whatever the plan and the registry, the lookup of part_003 sends one or
    two requests, each filtered by one of the four category names (never the
    unfiltered listing), and a second request is always the one for
    [general]. *)
Theorem loadProviders_requests
    (registry : option string -> Response (list Provider))
    (plan : option RepairPlan) (s : MPState) :
  Forall (fun r => exists c, r = GetProviders (Some c) /\ In c categories)
         (snd (Matcher.loadProviders registry plan s))
  /\ hd_error (snd (Matcher.loadProviders registry plan s))
     = Some (GetProviders (Some (Matcher.specialty plan)))
  /\ (tl (snd (Matcher.loadProviders registry plan s)) = []
      \/ tl (snd (Matcher.loadProviders registry plan s)) = [GetProviders (Some "general")]).
Proof.
  unfold Matcher.loadProviders. rewrite specialty_params.
  change (getProvidersParams (Some "general")) with (Some "general").
  pose proof (specialty_in_categories plan) as Hc.
  assert (Hg : In "general" categories) by (simpl; tauto).
  destruct (registry (Some (Matcher.specialty plan))) as [l|e]; simpl.
  - destruct (Nat.eqb (List.length l) 0 && negb (Matcher.specialty plan =? "general")).
    + destruct (registry (Some "general")); simpl;
        (split; [repeat constructor; eauto | split; [reflexivity | now right]]).
    + simpl. split; [repeat constructor; eauto | split; [reflexivity | now left]].
  - split; [repeat constructor; eauto | split; [reflexivity | now left]].
Qed.

(** A failed request leaves the provider list as it was and shows "Failed
    to load maintenance providers": this also holds when the first answer
    was empty and it is the retry with [general] that fails. *)
Theorem loadProviders_failure
    (registry : option string -> Response (list Provider))
    (plan : option RepairPlan) (s : MPState) (e : ApiError) :
  (registry (Some (Matcher.specialty plan)) = Thrown e ->
   Matcher.loadProviders registry plan s
   = (setError "Failed to load maintenance providers" s,
      [GetProviders (Some (Matcher.specialty plan))]))
  /\ (registry (Some (Matcher.specialty plan)) = Resolved [] ->
      Matcher.specialty plan <> "general" ->
      registry (Some "general") = Thrown e ->
      Matcher.loadProviders registry plan s
      = (setError "Failed to load maintenance providers" s,
         [GetProviders (Some (Matcher.specialty plan)); GetProviders (Some "general")])
      /\ providers (fst (Matcher.loadProviders registry plan s)) = providers s).
Proof.
  unfold Matcher.loadProviders. rewrite specialty_params. split.
  - intros ->. reflexivity.
  - intros -> Hg Hr. apply String.eqb_neq in Hg. rewrite Hg. simpl.
    change (getProvidersParams (Some "general")) with (Some "general").
    rewrite Hr. split; reflexivity.
Qed.

Lemma loadProviders_failure_witness :
  Matcher.loadProviders
    (fun q => match q with
              | Some "general" => Thrown (mkApiError None (Some "Network Error"))
              | _ => Resolved []
              end)
    (Some (planOf (Some "dead outlet") None)) (setProviders [samplePlumber] mpInitial)
  = (setError "Failed to load maintenance providers" (setProviders [samplePlumber] mpInitial),
     [GetProviders (Some "electrical"); GetProviders (Some "general")]).
Proof.
  apply (proj2 (loadProviders_failure
                  (fun q => match q with
                            | Some "general" => Thrown (mkApiError None (Some "Network Error"))
                            | _ => Resolved []
                            end)
                  (Some (planOf (Some "dead outlet") None))
                  (setProviders [samplePlumber] mpInitial)
                  (mkApiError None (Some "Network Error"))));
    [reflexivity | discriminate | reflexivity].
Defined.

Lemma truthyOpt_params (o : option string) :
  getProvidersParams (if Js.truthyOpt o then o else None)
  = if Js.truthyOpt o then o else None.
Proof.
  unfold getProvidersParams. destruct (Js.truthyOpt o) eqn:E; [now rewrite E | reflexivity].
Qed.

(** The lookup of frontend/src/components sends exactly one request: the
    hint as received when it is non-empty, and the unfiltered listing when
    the plan or the hint is absent or the hint is empty. *)
Theorem plain_loadProviders_request
    (registry : option string -> Response (list Provider))
    (plan : option RepairPlan) (s : MPState) :
  snd (Plain.loadProviders registry plan s)
  = [GetProviders
       match plan with
       | Some p =>
           match recommended_provider p with
           | Some h => if h =? "" then None else Some h
           | None => None
           end
       | None => None
       end].
Proof.
  unfold Plain.loadProviders, Plain.specialty.
  destruct plan as [p|].
  - rewrite truthyOpt_params.
    destruct (recommended_provider p) as [h|]; simpl.
    + unfold Js.truthyStr. destruct (h =? ""); simpl;
        destruct (registry _); reflexivity.
    + destruct (registry _); reflexivity.
  - simpl. destruct (registry _); reflexivity.
Qed.

Lemma toLowerCase_empty (s : string) : Js.toLowerCase s = "" <-> s = "".
Proof.
  destruct s; simpl; split; congruence.
Qed.

Lemma truthyStr_lower (s : string) : Js.truthyStr (Js.toLowerCase s) = Js.truthyStr s.
Proof.
  destruct s; reflexivity.
Qed.

(** The matcher does not see letter case: lower-casing the hint and the
    diagnosis of a plan beforehand does not change the specialty. *)
Theorem specialty_case_insensitive (p : RepairPlan) :
  Matcher.specialty
    (Some (mkRepairPlan (option_map Js.toLowerCase (diagnosis p)) (is_diy p)
             (estimated_time p) (estimated_cost p) (safety_warnings p) (steps p)
             (option_map Js.toLowerCase (recommended_provider p))))
  = Matcher.specialty (Some p).
Proof.
  assert (D : forall q q' : RepairPlan,
             diagnosis q' = option_map Js.toLowerCase (diagnosis q) ->
             Matcher.fromDiagnosis (Some q') = Matcher.fromDiagnosis (Some q)).
  { intros q q' H. rewrite !fromDiagnosis_firstHit. unfold diagnosisText. rewrite H.
    destruct (diagnosis q); simpl; [now rewrite toLowerCase_idem | reflexivity]. }
  unfold Matcher.specialty. cbn [recommended_provider].
  destruct (recommended_provider p) as [h|]; cbn [option_map].
  - rewrite truthyStr_lower. destruct (Js.truthyStr h).
    + unfold Matcher.fromRecommended. now rewrite toLowerCase_idem.
    + now apply D.
  - now apply D.
Qed.

(** Priority of the plumbing keywords: without a hint, a diagnosis whose
    lower-cased text contains "plumb", "water", "pipe" or "leak" is matched
    to [plumbing], whatever else it mentions. *)
Theorem plumbing_keywords_win (p : RepairPlan) (d k a b : string) :
  recommended_provider p = None ->
  diagnosis p = Some d ->
  In k ["plumb"; "water"; "pipe"; "leak"] ->
  Js.toLowerCase d = (a ++ k ++ b)%string ->
  Matcher.specialty (Some p) = "plumbing".
Proof.
  intros Hh Hd Hk Hl. simpl. rewrite Hh, fromDiagnosis_firstHit.
  unfold diagnosisText. rewrite Hd.
  assert (Hi : Js.includes (Js.toLowerCase d) k = true)
    by (apply includes_app; now exists a, b).
  unfold diagnosisFamilies, firstHit.
  replace (existsb (Js.includes (Js.toLowerCase d)) ["plumb"; "water"; "pipe"; "leak"])
    with true; [reflexivity|].
  symmetry. apply existsb_exists. now exists k.
Qed.

Lemma plumbing_keywords_win_witness :
  Matcher.specialty (Some (planOf (Some "Dishwasher LEAK near the outlet") None)) = "plumbing".
Proof.
  apply (plumbing_keywords_win (planOf (Some "Dishwasher LEAK near the outlet") None)
           "Dishwasher LEAK near the outlet" "leak" "dishwasher " " near the outlet");
    [reflexivity | reflexivity | simpl; tauto | reflexivity].
Defined.

(** ** Contacting a provider from the component *)

(** Both versions of [handleCallMaintenance] do nothing without a selected
    provider or with an absent or zero issue id; otherwise they send exactly
    one call-maintenance request for the selected provider and end with
    [isLoading] cleared, whether the request succeeded or not. *)
Theorem handleCallMaintenance_guard (backend : Z -> Z -> Response string)
    (issueId : option Z) (s : MPState) :
  (selectedProvider s = None \/ Js.truthyNum issueId = false ->
   Matcher.handleCallMaintenance backend issueId s = (s, [], [])
   /\ Plain.handleCallMaintenance backend issueId s = (s, [], []))
  /\ (forall (sp : Provider) (iid : Z),
         selectedProvider s = Some sp -> issueId = Some iid -> iid <> 0%Z ->
         snd (fst (Matcher.handleCallMaintenance backend issueId s))
         = [CallMaintenance iid (provider_id sp)]
         /\ snd (fst (Plain.handleCallMaintenance backend issueId s))
            = [CallMaintenance iid (provider_id sp)]
         /\ isLoading (fst (fst (Matcher.handleCallMaintenance backend issueId s))) = false
         /\ isLoading (fst (fst (Plain.handleCallMaintenance backend issueId s))) = false).
Proof.
  unfold Matcher.handleCallMaintenance, Plain.handleCallMaintenance. split.
  - intros [H|H].
    + rewrite H. now split.
    + rewrite H. destruct (selectedProvider s), issueId; now split.
  - intros sp iid Hs -> Hn. rewrite Hs. simpl.
    apply Z.eqb_neq in Hn. rewrite Hn. simpl.
    destruct (backend iid (provider_id sp)); simpl; repeat split.
Qed.

Lemma handleCallMaintenance_guard_witness :
  Matcher.handleCallMaintenance (fun _ _ => Resolved "ok") (Some 0%Z)
    (openProviderDialog samplePlumber (setProviders [samplePlumber] mpInitial))
  = (openProviderDialog samplePlumber (setProviders [samplePlumber] mpInitial), [], []).
Proof.
  apply (proj1 (handleCallMaintenance_guard (fun _ _ => Resolved "ok") (Some 0%Z)
                  (openProviderDialog samplePlumber (setProviders [samplePlumber] mpInitial)))).
  right. reflexivity.
Defined.

(** When the request of part_003's handler fails, the error shown is
    "Failed to send maintenance request: " followed by a cause that is never
    empty: the server's [detail] when it has one, else the error's
    [message], else "Unknown error occurred".  The dialog stays as it was,
    the success message is cleared and [onProviderCalled] is not invoked. *)
Theorem handleCallMaintenance_failure (backend : Z -> Z -> Response string)
    (s : MPState) (sp : Provider) (iid : Z) (e : ApiError) :
  selectedProvider s = Some sp ->
  iid <> 0%Z ->
  backend iid (provider_id sp) = Thrown e ->
  exists cause : string,
    cause <> ""
    /\ Some cause
       = Js.orElse (Js.orElse (err_detail e) (err_message e)) (Some "Unknown error occurred")
    /\ Matcher.handleCallMaintenance backend (Some iid) s
       = (mkMPState (providers s) (Some sp) (isDialogOpen s) false
            ("Failed to send maintenance request: " ++ cause) "",
          [CallMaintenance iid (provider_id sp)], []).
Proof.
  intros Hs Hn Hb. unfold Matcher.handleCallMaintenance.
  rewrite Hs. simpl. apply Z.eqb_neq in Hn. rewrite Hn. simpl. rewrite Hb.
  unfold setIsLoading, setError, setSuccess. cbn [providers selectedProvider isDialogOpen
    isLoading error success]. rewrite Hs.
  unfold Js.orElse.
  destruct (err_detail e) as [d|]; simpl.
  - destruct (Js.truthyStr d) eqn:Ed; simpl.
    + rewrite Ed. exists d. split; [now apply truthyStr_true|]. split; reflexivity.
    + destruct (err_message e) as [m|]; simpl.
      * destruct (Js.truthyStr m) eqn:Em.
        -- exists m. split; [now apply truthyStr_true|]. split; reflexivity.
        -- exists "Unknown error occurred". split; [discriminate|]. split; reflexivity.
      * exists "Unknown error occurred". split; [discriminate|]. split; reflexivity.
  - destruct (err_message e) as [m|]; simpl.
    + destruct (Js.truthyStr m) eqn:Em.
      * exists m. split; [now apply truthyStr_true|]. split; reflexivity.
      * exists "Unknown error occurred". split; [discriminate|]. split; reflexivity.
    + exists "Unknown error occurred". split; [discriminate|]. split; reflexivity.
Qed.

Lemma handleCallMaintenance_failure_witness :
  exists cause : string,
    cause <> ""
    /\ Some cause = Js.orElse (Js.orElse (Some "") None) (Some "Unknown error occurred")
    /\ Matcher.handleCallMaintenance (fun _ _ => Thrown (mkApiError (Some "") None)) (Some 5%Z)
         (openProviderDialog samplePlumber mpInitial)
       = (mkMPState [] (Some samplePlumber) true false
            ("Failed to send maintenance request: " ++ cause) "",
          [CallMaintenance 5 7], []).
Proof.
  apply (handleCallMaintenance_failure (fun _ _ => Thrown (mkApiError (Some "") None))
           (openProviderDialog samplePlumber mpInitial) samplePlumber 5%Z
           (mkApiError (Some "") None));
    [reflexivity | discriminate | reflexivity].
Defined.

Lemma run_not_shown
    (handle : option Z -> MPState -> MPState * list Request * list string)
    (issueId : option Z) (evs : list Event) (s : MPState) :
  run handle false issueId evs s = (s, [], []).
Proof.
  induction evs as [|ev evs IH]; simpl; [reflexivity | now rewrite IH].
Qed.

(** In the version of frontend/src/components, a component given no plan or
    a plan with [is_diy] true offers nothing to click: whatever the user
    does, no request is sent, [onProviderCalled] is not invoked and the
    state does not change. *)
Theorem plain_diy_never_contacts (backend : Z -> Z -> Response string)
    (plan : option RepairPlan) (issueId : option Z) (evs : list Event) (s : MPState) :
  plan = None \/ (exists p, plan = Some p /\ is_diy p = Some true) ->
  run (Plain.handleCallMaintenance backend) (Plain.renders plan) issueId evs s = (s, [], []).
Proof.
  intros H.
  assert (Hr : Plain.renders plan = false).
  { destruct H as [->|(p & -> & Hd)]; simpl; [reflexivity | now rewrite Hd]. }
  rewrite Hr. apply run_not_shown.
Qed.

Lemma plain_diy_never_contacts_witness :
  run (Plain.handleCallMaintenance (fun _ _ => Resolved "ok")) (Plain.renders (Some diyPlan))
    (Some 5%Z) [ClickCard 0; ClickContact] (setProviders [samplePlumber] mpInitial)
  = (setProviders [samplePlumber] mpInitial, [], []).
Proof.
  apply (plain_diy_never_contacts (fun _ _ => Resolved "ok") (Some diyPlan) (Some 5%Z)
           [ClickCard 0; ClickContact] (setProviders [samplePlumber] mpInitial)).
  right. exists diyPlan. split; reflexivity.
Defined.

(** The version of part_003 has no such guard: for every plan, also one with
    [is_diy] true, clicking the first listed provider and then "Contact
    Provider" sends the call-maintenance request for that provider. *)
Theorem matcher_contacts_any_plan (backend : Z -> Z -> Response string)
    (p : RepairPlan) (iid : Z) (pr : Provider) (rest : list Provider) (s : MPState) :
  providers s = pr :: rest ->
  isLoading s = false ->
  iid <> 0%Z ->
  snd (fst (run (Matcher.handleCallMaintenance backend) (Matcher.renders (Some p))
              (Some iid) [ClickCard 0; ClickContact] s))
  = [CallMaintenance iid (provider_id pr)].
Proof.
  intros Hp Hl Hn. simpl. rewrite Hp. simpl. rewrite Hl. simpl.
  unfold Matcher.handleCallMaintenance. simpl.
  apply Z.eqb_neq in Hn. rewrite Hn. simpl.
  destruct (backend iid (provider_id pr)); reflexivity.
Qed.

Lemma matcher_contacts_any_plan_witness :
  snd (fst (run (Matcher.handleCallMaintenance (fun _ _ => Resolved "ok"))
              (Matcher.renders (Some diyPlan)) (Some 5%Z) [ClickCard 0; ClickContact]
              (setProviders [samplePlumber] mpInitial)))
  = [CallMaintenance 5 7].
Proof.
  apply (matcher_contacts_any_plan (fun _ _ => Resolved "ok") diyPlan 5%Z samplePlumber []
           (setProviders [samplePlumber] mpInitial));
    [reflexivity | reflexivity | discriminate].
Defined.

Section ListedProviders.

Variable handle : option Z -> MPState -> MPState * list Request * list string.

(** What both versions of [handleCallMaintenance] guarantee: the provider
    list and the selection are kept, and every request is a call for the
    selected provider. *)
Hypothesis handle_selected :
  forall (issueId : option Z) (s : MPState),
    providers (fst (fst (handle issueId s))) = providers s
    /\ selectedProvider (fst (fst (handle issueId s))) = selectedProvider s
    /\ Forall (fun r => exists iid sp,
                   selectedProvider s = Some sp /\ r = CallMaintenance iid (provider_id sp))
              (snd (fst (handle issueId s))).

Lemma onEvent_listed (shown : bool) (issueId : option Z) (ev : Event) (s : MPState) :
  selectionListed s ->
  providers (fst (fst (onEvent handle shown issueId ev s))) = providers s
  /\ selectionListed (fst (fst (onEvent handle shown issueId ev s)))
  /\ Forall (callsListed (providers s)) (snd (fst (onEvent handle shown issueId ev s))).
Proof.
  intros Hs. unfold onEvent.
  destruct shown; [|now repeat split].
  destruct ev as [i| |].
  - destruct (nth_error (providers s) i) as [p|] eqn:E; [|now repeat split].
    simpl. repeat split; [|constructor].
    unfold selectionListed. simpl. eapply nth_error_In; eauto.
  - destruct (isDialogOpen s && negb (isLoading s)); [|now repeat split].
    destruct (handle_selected issueId s) as (Hp & Hsel & Hr).
    split; [exact Hp|]. split.
    + unfold selectionListed in *. now rewrite Hsel, Hp.
    + eapply Forall_impl; [|exact Hr].
      intros r (iid & sp & Hsp & ->). exists iid, sp. split; [|reflexivity].
      unfold selectionListed in Hs. now rewrite Hsp in Hs.
  - destruct (isDialogOpen s); now repeat split.
Qed.

Lemma run_listed (shown : bool) (issueId : option Z) (evs : list Event) (s : MPState) :
  selectionListed s ->
  providers (fst (fst (run handle shown issueId evs s))) = providers s
  /\ selectionListed (fst (fst (run handle shown issueId evs s)))
  /\ Forall (callsListed (providers s)) (snd (fst (run handle shown issueId evs s))).
Proof.
  revert s; induction evs as [|ev evs IH]; intros s Hs; simpl.
  - repeat split; [exact Hs | constructor].
  - destruct (onEvent_listed shown issueId ev s Hs) as (Hp & Hsel & Hr).
    destruct (onEvent handle shown issueId ev s) as [[s1 r1] c1]. simpl in *.
    destruct (IH s1 Hsel) as (Hp' & Hsel' & Hr').
    destruct (run handle shown issueId evs s1) as [[s2 r2] c2]. simpl in *.
    split; [congruence|]. split; [exact Hsel'|].
    apply Forall_app. split; [exact Hr|]. now rewrite <- Hp.
Qed.

End ListedProviders.

Lemma matcher_handle_selected (backend : Z -> Z -> Response string)
    (issueId : option Z) (s : MPState) :
  providers (fst (fst (Matcher.handleCallMaintenance backend issueId s))) = providers s
  /\ selectedProvider (fst (fst (Matcher.handleCallMaintenance backend issueId s)))
     = selectedProvider s
  /\ Forall (fun r => exists iid sp,
                 selectedProvider s = Some sp /\ r = CallMaintenance iid (provider_id sp))
            (snd (fst (Matcher.handleCallMaintenance backend issueId s))).
Proof.
  unfold Matcher.handleCallMaintenance.
  destruct (selectedProvider s) as [sp|] eqn:Hs; [|now repeat split].
  destruct issueId as [iid|]; [|now repeat split].
  destruct (Js.truthyNum (Some iid)); [|now repeat split].
  destruct (backend iid (provider_id sp)); simpl;
    (repeat split; [assumption | repeat constructor; eauto]).
Qed.

Lemma plain_handle_selected (backend : Z -> Z -> Response string)
    (issueId : option Z) (s : MPState) :
  providers (fst (fst (Plain.handleCallMaintenance backend issueId s))) = providers s
  /\ selectedProvider (fst (fst (Plain.handleCallMaintenance backend issueId s)))
     = selectedProvider s
  /\ Forall (fun r => exists iid sp,
                 selectedProvider s = Some sp /\ r = CallMaintenance iid (provider_id sp))
            (snd (fst (Plain.handleCallMaintenance backend issueId s))).
Proof.
  unfold Plain.handleCallMaintenance.
  destruct (selectedProvider s) as [sp|] eqn:Hs; [|now repeat split].
  destruct issueId as [iid|]; [|now repeat split].
  destruct (Js.truthyNum (Some iid)); [|now repeat split].
  destruct (backend iid (provider_id sp)); simpl;
    (repeat split; [assumption | repeat constructor; eauto]).
Qed.

(** Starting without a selection, whatever the user clicks, both versions
    of the component keep the provider list they were given and send
    call-maintenance requests only for providers of that list. *)
Theorem contacts_only_listed (backend : Z -> Z -> Response string) (shown : bool)
    (issueId : option Z) (evs : list Event) (s : MPState) :
  selectedProvider s = None ->
  (providers (fst (fst (run (Matcher.handleCallMaintenance backend) shown issueId evs s)))
   = providers s
   /\ Forall (fun r => exists iid pr,
                  In pr (providers s) /\ r = CallMaintenance iid (provider_id pr))
             (snd (fst (run (Matcher.handleCallMaintenance backend) shown issueId evs s))))
  /\ (providers (fst (fst (run (Plain.handleCallMaintenance backend) shown issueId evs s)))
      = providers s
      /\ Forall (fun r => exists iid pr,
                     In pr (providers s) /\ r = CallMaintenance iid (provider_id pr))
                (snd (fst (run (Plain.handleCallMaintenance backend) shown issueId evs s)))).
Proof.
  intros Hs.
  assert (Hl : selectionListed s) by (unfold selectionListed; now rewrite Hs).
  split.
  - destruct (run_listed _ (matcher_handle_selected backend) shown issueId evs s Hl)
      as (Hp & _ & Hr). split; [exact Hp | exact Hr].
  - destruct (run_listed _ (plain_handle_selected backend) shown issueId evs s Hl)
      as (Hp & _ & Hr). split; [exact Hp | exact Hr].
Qed.

Lemma contacts_only_listed_witness :
  providers (fst (fst (run (Matcher.handleCallMaintenance (fun _ _ => Resolved "ok")) true
                         (Some 5%Z) [ClickCard 1; ClickContact; ClickCard 0; ClickContact]
                         (setProviders [samplePlumber; sampleHandyman] mpInitial))))
  = [samplePlumber; sampleHandyman].
Proof.
  apply (proj1 (proj1 (contacts_only_listed (fun _ _ => Resolved "ok") true (Some 5%Z)
                         [ClickCard 1; ClickContact; ClickCard 0; ClickContact]
                         (setProviders [samplePlumber; sampleHandyman] mpInitial) eq_refl))).
Defined.

(** ** Further properties of the issue form *)

Lemma allWhite_app (a b : string) :
  Js.allWhite (a ++ b) = Js.allWhite a && Js.allWhite b.
Proof.
  induction a as [|c a IH]; simpl; [reflexivity | now rewrite IH, andb_assoc].
Qed.

(** After a successful upload the form is empty again, the callback has
    received the created issue, and pressing submit once more is rejected by
    the validation without a second request. *)
Theorem handleSubmit_success_resets (backend backend' : string -> string -> Response string)
    (s : ImageUpload.State) (image result : string) :
  ImageUpload.selectedImage s = Some image ->
  Js.allWhite (ImageUpload.description s) = false ->
  backend image (ImageUpload.description s) = Resolved result ->
  ImageUpload.handleSubmit backend s
  = (ImageUpload.mkState None "" (ImageUpload.isRecording s) false ""
       "Issue uploaded successfully!",
     [CreateIssue image (ImageUpload.description s)], [result])
  /\ ImageUpload.handleSubmit backend' (fst (fst (ImageUpload.handleSubmit backend s)))
     = (ImageUpload.mkState None "" (ImageUpload.isRecording s) false
          "Please provide both an image and description" "Issue uploaded successfully!",
        [], []).
Proof.
  intros Hi Hd Hb.
  assert (E : ImageUpload.handleSubmit backend s
              = (ImageUpload.mkState None "" (ImageUpload.isRecording s) false ""
                   "Issue uploaded successfully!",
                 [CreateIssue image (ImageUpload.description s)], [result])).
  { unfold ImageUpload.handleSubmit. now rewrite Hi, truthy_trim, Hd, Hb. }
  rewrite E. split; reflexivity.
Qed.

Lemma handleSubmit_success_resets_witness :
  ImageUpload.handleSubmit acceptIssue
    (ImageUpload.mkState (Some "sink.jpg") "Tap drips" false false "" "")
  = (ImageUpload.mkState None "" false false "" "Issue uploaded successfully!",
     [CreateIssue "sink.jpg" "Tap drips"], ["created"]).
Proof.
  apply (proj1 (handleSubmit_success_resets acceptIssue acceptIssue
                  (ImageUpload.mkState (Some "sink.jpg") "Tap drips" false false "" "")
                  "sink.jpg" "created" eq_refl eq_refl eq_refl)).
Defined.

(** After a failed upload the image and the description are still in the
    form, [isUploading] is cleared and the error is shown; submitting again
    sends the same request again. *)
Theorem handleSubmit_failure_keeps_form
    (backend backend' : string -> string -> Response string)
    (s : ImageUpload.State) (image : string) (e : ApiError) :
  ImageUpload.selectedImage s = Some image ->
  Js.allWhite (ImageUpload.description s) = false ->
  backend image (ImageUpload.description s) = Thrown e ->
  ImageUpload.handleSubmit backend s
  = (ImageUpload.mkState (Some image) (ImageUpload.description s)
       (ImageUpload.isRecording s) false "Failed to upload issue. Please try again." "",
     [CreateIssue image (ImageUpload.description s)], [])
  /\ snd (fst (ImageUpload.handleSubmit backend'
                 (fst (fst (ImageUpload.handleSubmit backend s)))))
     = [CreateIssue image (ImageUpload.description s)].
Proof.
  intros Hi Hd Hb.
  assert (E : ImageUpload.handleSubmit backend s
              = (ImageUpload.mkState (Some image) (ImageUpload.description s)
                   (ImageUpload.isRecording s) false
                   "Failed to upload issue. Please try again." "",
                 [CreateIssue image (ImageUpload.description s)], [])).
  { unfold ImageUpload.handleSubmit. now rewrite Hi, truthy_trim, Hd, Hb. }
  rewrite E. split; [reflexivity|].
  unfold ImageUpload.handleSubmit. simpl. rewrite truthy_trim, Hd. simpl.
  destruct (backend' image (ImageUpload.description s)); reflexivity.
Qed.

Lemma handleSubmit_failure_keeps_form_witness :
  ImageUpload.handleSubmit (fun _ _ => Thrown (mkApiError None (Some "Network Error")))
    (ImageUpload.mkState (Some "sink.jpg") "Tap drips" false false "" "")
  = (ImageUpload.mkState (Some "sink.jpg") "Tap drips" false false
       "Failed to upload issue. Please try again." "",
     [CreateIssue "sink.jpg" "Tap drips"], []).
Proof.
  apply (proj1 (handleSubmit_failure_keeps_form
                  (fun _ _ => Thrown (mkApiError None (Some "Network Error"))) acceptIssue
                  (ImageUpload.mkState (Some "sink.jpg") "Tap drips" false false "" "")
                  "sink.jpg" (mkApiError None (Some "Network Error"))
                  eq_refl eq_refl eq_refl)).
Defined.

(** The submit button and the handler agree: whenever the button is
    enabled, pressing it sends exactly one issue-creation request. *)
Theorem submit_enabled_sends (backend : string -> string -> Response string)
    (s : ImageUpload.State) :
  ImageUpload.submitDisabled s = false ->
  exists image,
    ImageUpload.selectedImage s = Some image
    /\ snd (fst (ImageUpload.handleSubmit backend s))
       = [CreateIssue image (ImageUpload.description s)].
Proof.
  unfold ImageUpload.submitDisabled, ImageUpload.handleSubmit. intros H.
  apply orb_false_iff in H. destruct H as [H Ht].
  apply orb_false_iff in H. destruct H as [_ Hi].
  destruct (ImageUpload.selectedImage s) as [image|]; [|discriminate].
  exists image. split; [reflexivity|]. rewrite Ht.
  destruct (backend image (ImageUpload.description s)); reflexivity.
Qed.

Lemma submit_enabled_sends_witness :
  exists image,
    Some "sink.jpg" = Some image
    /\ snd (fst (ImageUpload.handleSubmit acceptIssue
                   (ImageUpload.mkState (Some "sink.jpg") "Tap drips" false false "" "")))
       = [CreateIssue image "Tap drips"].
Proof.
  apply (submit_enabled_sends acceptIssue
           (ImageUpload.mkState (Some "sink.jpg") "Tap drips" false false "" "")).
  reflexivity.
Defined.

(** Starting a voice note makes any description non-blank (the marker
    " [Voice note recorded]" is appended), so an image alone then passes the
    validation; stopping it again restores [isRecording] and leaves the
    marker in place exactly once. *)
Theorem toggleRecording_marks (s : ImageUpload.State) :
  ImageUpload.isRecording s = false ->
  Js.allWhite (ImageUpload.description (ImageUpload.toggleRecording s)) = false
  /\ ImageUpload.toggleRecording (ImageUpload.toggleRecording s)
     = ImageUpload.mkState (ImageUpload.selectedImage s)
         (ImageUpload.description s ++ " [Voice note recorded]")
         false (ImageUpload.isUploading s) (ImageUpload.error s) (ImageUpload.success s).
Proof.
  intros H. unfold ImageUpload.toggleRecording. simpl. rewrite H. simpl. split.
  - rewrite allWhite_app. apply andb_false_r.
  - reflexivity.
Qed.

Lemma toggleRecording_marks_witness :
  Js.allWhite (ImageUpload.description (ImageUpload.toggleRecording ImageUpload.initial))
  = false.
Proof.
  apply (proj1 (toggleRecording_marks ImageUpload.initial eq_refl)).
Defined.

(** ** Further properties of the step list *)

Lemma filter_all {A : Type} (f : A -> bool) (l : list A) :
  (forall x, In x l -> f x = true) -> filter f l = l.
Proof.
  induction l as [|a l IH]; simpl; intros H; [reflexivity|].
  rewrite (H a (or_introl eq_refl)). f_equal. apply IH. intros x Hx. apply H. now right.
Qed.

(** Dividers separate the steps: a list of [n] steps shows [n - 1] of them
    (none for the empty list), one after every step but the last. *)
Theorem dividers_count (l : list Step) :
  FlowchartDisplay.dividers l = (List.length l - 1)%nat
  /\ (forall i, FlowchartDisplay.dividerAfter l i = true <-> (S i < List.length l)%nat).
Proof.
  split.
  - unfold FlowchartDisplay.dividers.
    destruct (List.length l) as [|n] eqn:E; [reflexivity|].
    rewrite seq_S, filter_app. simpl.
    replace (FlowchartDisplay.dividerAfter l n) with false.
    + rewrite filter_all.
      * rewrite app_nil_r, length_seq. lia.
      * intros x Hx. apply in_seq in Hx. unfold FlowchartDisplay.dividerAfter.
        rewrite E. apply Z.ltb_lt. lia.
    + symmetry. unfold FlowchartDisplay.dividerAfter. rewrite E. apply Z.ltb_ge. lia.
  - intros i. unfold FlowchartDisplay.dividerAfter. rewrite Z.ltb_lt. lia.
Qed.

(** When no step carries a [step] field, the steps are shown as
    1, 2, ..., n in list order. *)
Theorem stepNumbers_unnumbered (l : list Step) :
  Forall (fun st => step st = None) l ->
  FlowchartDisplay.stepNumbersFrom 0 l
  = map (fun i => Z.of_nat i + 1)%Z (seq 0 (List.length l)).
Proof.
  generalize 0%nat as k. induction l as [|st l IH]; intros k H; simpl; [reflexivity|].
  inversion H as [|? ? Hst Hl]; subst.
  unfold FlowchartDisplay.stepNumber at 1. rewrite Hst. f_equal. now apply IH.
Qed.

Lemma stepNumbers_unnumbered_witness :
  FlowchartDisplay.stepNumbersFrom 0
    [mkStep None "Shut the valve" None None; mkStep None "Open the tap" None None]
  = [1%Z; 2%Z].
Proof.
  apply (stepNumbers_unnumbered
           [mkStep None "Shut the valve" None None; mkStep None "Open the tap" None None]).
  repeat constructor.
Defined.

(** ** Further properties of the issue page *)


(** On the page of frontend/src/pages, an issue in [maintenance_called]
    that was just loaded offers no way to analyze it: [loadIssue] leaves
    [analysis] unset, neither card with an analyze button is shown and
    "Re-analyze" is absent. *)
Theorem maintenance_called_no_analyze (getIssue : Z -> Response Issue) (n : Z) (i : Issue) :
  getIssue n = Resolved i ->
  status i = "maintenance_called" ->
  Page.issue (fst (IssueDetails.loadIssue getIssue n Page.initial)) = Some i
  /\ IssueDetails.showsAnalyzeCard (fst (IssueDetails.loadIssue getIssue n Page.initial))
     = false
  /\ Page.showsReanalyze (fst (IssueDetails.loadIssue getIssue n Page.initial)) = false.
Proof.
  intros Hg Hs. unfold IssueDetails.loadIssue. rewrite Hg. simpl.
  unfold IssueDetails.showsAnalyzeCard. simpl. now rewrite Hs.
Qed.

Lemma maintenance_called_no_analyze_witness :
  IssueDetails.showsAnalyzeCard
    (fst (IssueDetails.loadIssue (fun _ => Resolved (issueWithStatus 6 "maintenance_called"))
            6 Page.initial))
  = false.
Proof.
  apply (maintenance_called_no_analyze
           (fun _ => Resolved (issueWithStatus 6 "maintenance_called")) 6
           (issueWithStatus 6 "maintenance_called") eq_refl eq_refl).
Defined.

(** On the page of part_002 the re-read after a successful analysis
    replaces the fresh result by the stored plan alone: when the store
    returns an issue whose non-empty [repair_plan] parses, the page ends with
    that plan and without the flowcharts the analysis had delivered. *)
Theorem reload_drops_flowcharts (parse : string -> option (option RepairPlan))
    (analyze : Z -> Response Analysis) (getIssue : Z -> Response Issue)
    (n : Z) (s : Page.State) (result : Analysis) (stored : Issue) (text : string)
    (plan : option RepairPlan) :
  analyze n = Resolved result ->
  getIssue n = Resolved stored ->
  repair_plan stored = Some text ->
  text <> "" ->
  parse text = Some plan ->
  IssueDetailsReload.analyzeIssue parse analyze getIssue n s
  = (Page.mkState (Some stored) (Some (mkAnalysis plan None None)) false "" false,
     [AnalyzeIssue n; GetIssue n]).
Proof.
  intros Ha Hg Hr Ht Hp.
  unfold IssueDetailsReload.analyzeIssue, IssueDetailsReload.loadIssue.
  rewrite Ha, Hg, Hr. simpl. apply truthyStr_true in Ht. rewrite Ht, Hp. reflexivity.
Qed.

Lemma reload_drops_flowcharts_witness :
  IssueDetailsReload.analyzeIssue (fun _ => Some (Some diyPlan))
    (fun _ => Resolved freshAnalysis)
    (fun _ => Resolved (mkIssue 5 "Tap drips" None "analyzed" None (Some "{}") "" ""))
    5 loadedPage
  = (Page.mkState (Some (mkIssue 5 "Tap drips" None "analyzed" None (Some "{}") "" ""))
       (Some (mkAnalysis (Some diyPlan) None None)) false "" false,
     [AnalyzeIssue 5; GetIssue 5]).
Proof.
  apply (reload_drops_flowcharts (fun _ => Some (Some diyPlan))
           (fun _ => Resolved freshAnalysis)
           (fun _ => Resolved (mkIssue 5 "Tap drips" None "analyzed" None (Some "{}") "" ""))
           5 loadedPage freshAnalysis
           (mkIssue 5 "Tap drips" None "analyzed" None (Some "{}") "" "") "{}"
           (Some diyPlan));
    [reflexivity | reflexivity | reflexivity | discriminate | reflexivity].
Defined.

(** On the page of frontend/src/pages, after any successful analysis the
    stepper stands at "AI Analysis" and "Mark as Completed" is offered,
    whatever the status was before. *)
Theorem analysis_resets_progress (analyze : Z -> Response Analysis) (n : Z)
    (s : Page.State) (i : Issue) (result : Analysis) :
  Page.issue s = Some i ->
  analyze n = Resolved result ->
  exists i',
    Page.issue (fst (IssueDetails.analyzeIssue analyze n s)) = Some i'
    /\ Page.getStepIndex (status i') = 1%nat
    /\ Page.showsMarkCompleted i' = true
    /\ Page.showsReanalyze (fst (IssueDetails.analyzeIssue analyze n s)) = true.
Proof.
  intros Hi Ha. unfold IssueDetails.analyzeIssue. rewrite Ha, Hi. simpl.
  eexists. split; [reflexivity|]. repeat split.
Qed.

Lemma analysis_resets_progress_witness :
  exists i',
    Page.issue (fst (IssueDetails.analyzeIssue (fun _ => Resolved freshAnalysis) 5 loadedPage))
    = Some i'
    /\ Page.getStepIndex (status i') = 1%nat
    /\ Page.showsMarkCompleted i' = true
    /\ Page.showsReanalyze
         (fst (IssueDetails.analyzeIssue (fun _ => Resolved freshAnalysis) 5 loadedPage))
       = true.
Proof.
  apply (analysis_resets_progress (fun _ => Resolved freshAnalysis) 5 loadedPage
           completedIssue freshAnalysis eq_refl eq_refl).
Defined.

(** "Mark as Completed": when the update fails nothing is re-read, the
    issue shown stays as it was and "Failed to mark as completed" is
    reported; when the update succeeds but the re-read fails, the page still
    shows the old issue, now with "Failed to load issue details"; only a
    successful re-read changes the issue shown, to the stored one. *)
Theorem markCompleted_outcomes (updateIssue : Z -> string -> Response string)
    (getIssue : Z -> Response Issue) (n : Z) (s : Page.State) (i : Issue) :
  Page.issue s = Some i ->
  (forall e, updateIssue (issue_id i) "completed" = Thrown e ->
     IssueDetails.markCompleted updateIssue getIssue n s
     = (Page.mkState (Some i) (Page.analysis s) (Page.isAnalyzing s)
          "Failed to mark as completed" (Page.isLoading s),
        [UpdateIssueStatus (issue_id i) "completed"]))
  /\ (forall r e, updateIssue (issue_id i) "completed" = Resolved r ->
        getIssue n = Thrown e ->
        IssueDetails.markCompleted updateIssue getIssue n s
        = (Page.mkState (Some i) (Page.analysis s) (Page.isAnalyzing s)
             "Failed to load issue details" false,
           [UpdateIssueStatus (issue_id i) "completed"; GetIssue n]))
  /\ (forall r stored, updateIssue (issue_id i) "completed" = Resolved r ->
        getIssue n = Resolved stored ->
        IssueDetails.markCompleted updateIssue getIssue n s
        = (Page.mkState (Some stored) (Page.analysis s) (Page.isAnalyzing s)
             (Page.error s) false,
           [UpdateIssueStatus (issue_id i) "completed"; GetIssue n])).
Proof.
  intros Hi. unfold IssueDetails.markCompleted, IssueDetails.loadIssue. rewrite Hi.
  repeat split.
  - intros e ->. reflexivity.
  - intros r e -> ->. reflexivity.
  - intros r stored -> ->. reflexivity.
Qed.

Lemma markCompleted_outcomes_witness :
  IssueDetails.markCompleted (fun _ _ => Resolved "ok")
    (fun _ => Thrown (mkApiError None (Some "timeout"))) 5
    (Page.mkState (Some (issueWithStatus 5 "analyzed")) None false "" false)
  = (Page.mkState (Some (issueWithStatus 5 "analyzed")) None false
       "Failed to load issue details" false,
     [UpdateIssueStatus 5 "completed"; GetIssue 5]).
Proof.
  apply (proj1 (proj2 (markCompleted_outcomes (fun _ _ => Resolved "ok")
                         (fun _ => Thrown (mkApiError None (Some "timeout"))) 5
                         (Page.mkState (Some (issueWithStatus 5 "analyzed")) None false ""
                            false)
                         (issueWithStatus 5 "analyzed") eq_refl))
           "ok" (mkApiError None (Some "timeout")) eq_refl eq_refl).
Defined.

(** Deleting from the issue page: nothing is sent unless the user confirms,
    and the page navigates away exactly when the confirmed delete request
    succeeded. *)
Theorem handleDeleteIssue_navigates (deleteIssue : Z -> Response string)
    (confirmed : bool) (n : Z) (s : Page.State) :
  (snd (IssueDetails.handleDeleteIssue deleteIssue confirmed n s) = true
   <-> confirmed = true /\ exists r, deleteIssue n = Resolved r)
  /\ (snd (fst (IssueDetails.handleDeleteIssue deleteIssue confirmed n s)) <> []
      <-> confirmed = true).
Proof.
  unfold IssueDetails.handleDeleteIssue.
  destruct confirmed; [destruct (deleteIssue n) as [r|e]|]; simpl.
  - split; split; intros _; [split; [reflexivity | now exists r] | | | ];
      try reflexivity; discriminate.
  - split; split.
    + discriminate.
    + intros [_ [r Hr]]. discriminate.
    + reflexivity.
    + discriminate.
  - split; split.
    + discriminate.
    + intros [H _]. discriminate.
    + intros H. now elim H.
    + discriminate.
Qed.

(** ** Dashboard *)

(** [loadData] is all or nothing: when either of the two requests fails,
    the issue list and the statistics both keep their previous values, even
    if the other request had succeeded. *)
Theorem loadData_all_or_nothing (getIssues : Response (list Issue))
    (getStats : Response Dashboard.Stats) (s : Dashboard.State) :
  (exists e, getIssues = Thrown e) \/ (exists e, getStats = Thrown e) ->
  Dashboard.loadData getIssues getStats s
  = Dashboard.mkState (Dashboard.issues s) (Dashboard.stats s) (Dashboard.showUpload s)
      false "Failed to load dashboard data".
Proof.
  unfold Dashboard.loadData.
  intros [[e ->]|[e ->]]; [reflexivity | now destruct getIssues].
Qed.

Lemma loadData_all_or_nothing_witness :
  Dashboard.loadData (Resolved tenIssues) (Thrown (mkApiError None None)) Dashboard.initial
  = Dashboard.mkState [] None false false "Failed to load dashboard data".
Proof.
  apply (loadData_all_or_nothing (Resolved tenIssues) (Thrown (mkApiError None None))
           Dashboard.initial).
  right. now exists (mkApiError None None).
Defined.

(** "Recent Issues" lists the first ten issues in the order received: at
    most ten rows, all the issues when there are no more than ten. *)
Theorem recentIssues_prefix (s : Dashboard.State) :
  (List.length (Dashboard.recentIssues s) <= 10)%nat
  /\ (exists rest, Dashboard.issues s = Dashboard.recentIssues s ++ rest)
  /\ ((List.length (Dashboard.issues s) <= 10)%nat ->
      Dashboard.recentIssues s = Dashboard.issues s).
Proof.
  unfold Dashboard.recentIssues. split; [apply firstn_le_length|]. split.
  - exists (skipn 10 (Dashboard.issues s)). symmetry. apply firstn_skipn.
  - intros H. now apply firstn_all2.
Qed.

Lemma recentIssues_prefix_witness :
  Dashboard.recentIssues (Dashboard.mkState tenIssues None false false "") = tenIssues.
Proof.
  apply (proj2 (proj2 (recentIssues_prefix (Dashboard.mkState tenIssues None false false "")))).
  simpl. lia.
Defined.

(** ** Chat *)



(** ** Further edge cases *)

Lemma stepNumbersFrom_length (k : nat) (l : list Step) :
  List.length (FlowchartDisplay.stepNumbersFrom k l) = List.length l.
Proof.
  revert k; induction l as [|st l IH]; intros k; simpl; [reflexivity | now rewrite IH].
Qed.

(** The step list is replaced by "No detailed steps available." exactly
    when the plan's [steps] are absent or empty; otherwise one number is
    shown per step. *)
Theorem stepNumbers_absent (p : RepairPlan) :
  (FlowchartDisplay.stepNumbers p = None <-> steps p = None \/ steps p = Some [])
  /\ (forall l, FlowchartDisplay.stepNumbers p = Some l ->
      exists sts, steps p = Some sts /\ sts <> [] /\ List.length l = List.length sts).
Proof.
  unfold FlowchartDisplay.stepNumbers.
  destruct (steps p) as [[|st sts]|]; simpl; split.
  - split; [now right | reflexivity].
  - discriminate.
  - split; [discriminate | intros [H|H]; discriminate].
  - intros l H. inversion H. exists (st :: sts). split; [reflexivity|].
    split; [discriminate|]. simpl. now rewrite stepNumbersFrom_length.
  - split; [now left | reflexivity].
  - discriminate.
Qed.

(** Deleting from the dashboard: without confirmation nothing is sent and
    nothing changes; when the delete request fails, the list and the
    statistics are not reloaded and "Failed to delete issue" is shown. *)
Theorem dashboard_delete_failure (deleteIssue : Z -> Response string)
    (getIssues : Response (list Issue)) (getStats : Response Dashboard.Stats)
    (issueId : Z) (s : Dashboard.State) :
  Dashboard.handleDeleteIssue deleteIssue getIssues getStats false issueId s = (s, [])
  /\ (forall e, deleteIssue issueId = Thrown e ->
      Dashboard.handleDeleteIssue deleteIssue getIssues getStats true issueId s
      = (Dashboard.mkState (Dashboard.issues s) (Dashboard.stats s) (Dashboard.showUpload s)
           (Dashboard.isLoading s) "Failed to delete issue",
         [DeleteIssue issueId])).
Proof.
  unfold Dashboard.handleDeleteIssue. split; [reflexivity|].
  intros e ->. reflexivity.
Qed.

Lemma dashboard_delete_failure_witness :
  Dashboard.handleDeleteIssue (fun _ => Thrown (mkApiError None None))
    (Resolved []) (Thrown (mkApiError None None)) true 3
    (Dashboard.mkState tenIssues None false false "")
  = (Dashboard.mkState tenIssues None false false "Failed to delete issue", [DeleteIssue 3]).
Proof.
  apply (proj2 (dashboard_delete_failure (fun _ => Thrown (mkApiError None None))
                  (Resolved []) (Thrown (mkApiError None None)) 3
                  (Dashboard.mkState tenIssues None false false ""))
           (mkApiError None None) eq_refl).
Defined.

(** The form's normal path: after a file is dropped and a non-blank
    description is typed, the submit button is enabled (unless an upload is
    running) and pressing it sends the issue-creation request with the first
    dropped file and the description as typed. *)
Theorem drop_type_submit (backend : string -> string -> Response string)
    (s : ImageUpload.State) (file : string) (others : list string) (text : string) :
  ImageUpload.isUploading s = false ->
  Js.allWhite text = false ->
  ImageUpload.submitDisabled
    (ImageUpload.setDescription text (ImageUpload.onDrop (file :: others) s)) = false
  /\ snd (fst (ImageUpload.handleSubmit backend
                 (ImageUpload.setDescription text (ImageUpload.onDrop (file :: others) s))))
     = [CreateIssue file text].
Proof.
  intros Hu Ht. unfold ImageUpload.submitDisabled, ImageUpload.handleSubmit. simpl.
  rewrite truthy_trim, Ht, Hu. simpl. split; [reflexivity|].
  destruct (backend file text); reflexivity.
Qed.

Lemma drop_type_submit_witness :
  snd (fst (ImageUpload.handleSubmit acceptIssue
              (ImageUpload.setDescription "Tap drips"
                 (ImageUpload.onDrop ["sink.jpg"; "tap.png"] ImageUpload.initial))))
  = [CreateIssue "sink.jpg" "Tap drips"].
Proof.
  apply (proj2 (drop_type_submit acceptIssue ImageUpload.initial "sink.jpg" ["tap.png"]
                  "Tap drips" eq_refl eq_refl)).
Defined.

Lemma stepNumbers_absent_witness :
  FlowchartDisplay.stepNumbers (planOf (Some "Hinge is loose") None) = None.
Proof.
  apply (proj1 (stepNumbers_absent (planOf (Some "Hinge is loose") None))).
  now left.
Defined.

Lemma dividers_count_witness : FlowchartDisplay.dividerAfter zeroBasedSteps 1 = true.
Proof.
  apply (proj2 (dividers_count zeroBasedSteps) 1%nat). simpl. lia.
Defined.

Lemma handleDeleteIssue_navigates_witness :
  snd (IssueDetails.handleDeleteIssue (fun _ => Resolved "deleted") true 5 loadedPage) = true.
Proof.
  apply (proj1 (handleDeleteIssue_navigates (fun _ => Resolved "deleted") true 5 loadedPage)).
  split; [reflexivity | now exists "deleted"].
Defined.
